(** * Notification backend: device registry, message lifecycle, receipts

    A shallow embedding of the Express server of the repository
    (src/server/index.js, and its superset with the /api/users routes and
    the PUT/PATCH/alias bindings of the broadcast receipt), with the
    properties of the specification stated and settled on it.

    Conventions of the embedding.
    - A JSON attribute value is a scalar, [value]; a JavaScript expression
      that may be [undefined] is an [option value], [None] being
      [undefined].  Objects are finite maps from property names to scalars
      ([gmap string value]); object spread and [Object.assign] are the
      left-biased union of maps.  On scalars [===] and [Array.includes]
      are equality.
    - A request body is the object of its scalar properties.  The two
      properties that hold more than a scalar, the [data] object of a
      message or broadcast and the [targetUsers] array of a targeted send,
      are given to the handler beside it.
    - An instant is kept as its number of milliseconds since the epoch:
      [VDate t] is the string [new Date(t).toISOString()], and the typed
      time fields ([createdAt], [sentAt], [readAt]) hold the number.
    - Every handler is a function from the clock reading of the request,
      the parsed request body and the four collections to a response and
      the four collections.  The clock reads of one handler body are taken
      at the same instant.
    - The two storage backends (JSON files, [global.memoryDb]) behave alike
      for every handler but one: the in-place [sort] of
      GET /api/broadcasts/recent stays in the in-memory table. *)

From stdpp Require Import gmap strings list fin_maps pretty sorting.

(** ** JSON scalars and objects *)

Inductive value :=
  | VNull
  | VBool (b : bool)
  | VNum (n : Z)
  | VStr (s : string)
  | VDate (t : N).

#[global] Instance value_eq_dec : EqDecision value.
Proof. solve_decision. Defined.

Abbreviation obj := (gmap string value).

(** JavaScript truthiness of an expression. *)
Definition truthy (v : option value) : bool :=
  match v with
  | None => false
  | Some VNull => false
  | Some (VBool b) => b
  | Some (VNum n) => negb (n =? 0)%Z
  | Some (VStr s) => negb (String.eqb s "")
  | Some (VDate _) => true
  end.

(** [a || b] *)
Definition js_or (a b : option value) : option value :=
  if truthy a then a else b.

(** [o.k = v]; a property set to [undefined] reads back as [undefined]. *)
Definition set_prop (k : string) (v : option value) (o : obj) : obj :=
  match v with
  | Some x => <[k := x]> o
  | None => delete k o
  end.

(** [new Date().toISOString()] and [Date.now().toString()] *)
Definition toISOString (now : N) : value := VDate now.
Definition toString (now : N) : string := pretty now.

(** ** The four collections *)

Record message := Message {
  m_id : string;
  m_title : option value;
  m_body : option value;
  m_data : obj;
  m_createdAt : N;
  m_status : string;
}.

Record recipient := Recipient {
  r_deviceId : option value;
  r_token : option value;
  r_userId : option value;
  r_status : string;
  r_readAt : option N;
}.

Record sent_message := SentMessage {
  s_id : string;
  s_title : option value;
  s_body : option value;
  s_data : obj;
  s_createdAt : N;
  s_sentAt : N;
  s_status : string;
  s_targetType : option string;
  s_recipients : list recipient;
}.

Record broadcast := Broadcast {
  b_id : string;
  b_title : option value;
  b_message : option value;
  b_type : option value;
  b_data : obj;
  b_sentAt : N;
  b_recipients : list (option value);
  b_receivedBy : list (option value);
}.

Record db := Db {
  devices : list obj;
  pendingMessages : list message;
  sentMessages : list sent_message;
  broadcastMessages : list broadcast;
}.

Definition memoryDb : db := Db [] [] [] [].

#[global] Instance message_eq_dec : EqDecision message.
Proof. solve_decision. Defined.
#[global] Instance recipient_eq_dec : EqDecision recipient.
Proof. solve_decision. Defined.
#[global] Instance sent_message_eq_dec : EqDecision sent_message.
Proof. solve_decision. Defined.
#[global] Instance broadcast_eq_dec : EqDecision broadcast.
Proof. solve_decision. Defined.

(** [saveDevices], [savePendingMessages], [saveSentMessages],
    [saveBroadcastMessages]: the whole collection is replaced. *)
Definition saveDevices (ds : list obj) (s : db) : db :=
  Db ds (pendingMessages s) (sentMessages s) (broadcastMessages s).
Definition savePendingMessages (ms : list message) (s : db) : db :=
  Db (devices s) ms (sentMessages s) (broadcastMessages s).
Definition saveSentMessages (ms : list sent_message) (s : db) : db :=
  Db (devices s) (pendingMessages s) ms (broadcastMessages s).
Definition saveBroadcastMessages (bs : list broadcast) (s : db) : db :=
  Db (devices s) (pendingMessages s) (sentMessages s) bs.

(** ** Responses *)

Record user := User {
  u_id : option value;
  u_displayName : option value;
  u_email : option value;
  u_deviceCount : nat;
  u_devices : list (option value);
}.

Inductive reply :=
  | DeviceRegistered (deviceId : option value)
  | MessageCreated (data : message)
  | MessageSent (data : sent_message)
  | TargetedSent (messageId : string) (sentTo : nat)
  | MarkedRead
  | BroadcastSent (broadcastId : string) (recipients : nat)
  | BroadcastReceived
  | BroadcastUpdated
  | UserUpserted (msg : string) (deviceCount : nat) (userId : option value)
  | DeviceList (l : list obj)
  | PendingList (l : list message)
  | SentList (l : list sent_message)
  | BroadcastList (l : list broadcast)
  | UserList (l : list user)
  | UserInfo (id displayName email : option value) (deviceCount : nat)
      (devs : list obj).

Inductive response :=
  | Success (r : reply)
  | ValidationError (error : string)
  | NotFound (error : string).

(** The HTTP status of a response. *)
Definition status (r : response) : nat :=
  match r with
  | Success (MessageCreated _) => 201
  | Success _ => 200
  | ValidationError _ => 400
  | NotFound _ => 404
  end.

Definition is_success (r : response) : bool :=
  match r with Success _ => true | _ => false end.

(** ** Handlers *)

(** POST /api/devices *)
Definition registerDevice (now : N) (device : obj) (s : db) : response * db :=
  if negb (truthy (device !! "token")) then
    (ValidationError "FCM token is required", s)
  else
    let devs := devices s in
    match list_find (λ d : obj, d !! "token" = device !! "token") devs with
    | Some (i, existingDevice) =>
        let existingDevice' :=
          (<["lastSeen" := toISOString now]> device) ∪ existingDevice in
        let devs' := <[i := existingDevice']> devs in
        (Success (DeviceRegistered
                    (js_or (existingDevice' !! "id")
                           (last devs' ≫= λ d, d !! "id"))),
         saveDevices devs' s)
    | None =>
        let newDevice :=
          device ∪
          set_prop "id" (Some (VStr (toString now)))
            (set_prop "token" (device !! "token")
            (set_prop "userId" (js_or (device !! "userId") (Some VNull))
            (set_prop "platform"
               (js_or (device !! "platform") (Some (VStr "android")))
            (set_prop "createdAt" (Some (toISOString now))
            (set_prop "lastSeen" (Some (toISOString now)) ∅))))) in
        let devs' := devs ++ [newDevice] in
        (Success (DeviceRegistered (last devs' ≫= λ d, d !! "id")),
         saveDevices devs' s)
    end.

(** GET /api/devices and GET /api/broadcast/devices *)
Definition listDevices (s : db) : response * db :=
  (Success (DeviceList (devices s)), s).

(** POST /api/messages; [data] is the body's [data] property, an object
    when the body carries one. *)
Definition createMessage (now : N) (message : obj) (data : option obj)
    (s : db) : response * db :=
  if negb (truthy (message !! "title")) || negb (truthy (message !! "body"))
  then (ValidationError "Title and body are required", s)
  else
    let pending := pendingMessages s in
    let newMessage :=
      {| m_id := toString now;
         m_title := message !! "title";
         m_body := message !! "body";
         m_data := default ∅ data;
         m_createdAt := now;
         m_status := "pending" |} in
    (Success (MessageCreated newMessage),
     savePendingMessages (pending ++ [newMessage]) s).

(** GET /api/messages/pending, GET /api/messages/sent *)
Definition listPending (s : db) : response * db :=
  (Success (PendingList (pendingMessages s)), s).
Definition listSent (s : db) : response * db :=
  (Success (SentList (sentMessages s)), s).

(** [devices.map((d) => ({deviceId: d.id, token: d.token, userId: d.userId,
    status: "sent", readAt: null}))] *)
Definition to_recipient (d : obj) : recipient :=
  {| r_deviceId := d !! "id";
     r_token := d !! "token";
     r_userId := d !! "userId";
     r_status := "sent";
     r_readAt := None |}.

(** [{...messageToSend, sentAt, status: "sent", targetType, recipients}] *)
Definition to_sent (now : N) (messageToSend : message)
    (targetType : option string) (recipients : list recipient)
    : sent_message :=
  {| s_id := m_id messageToSend;
     s_title := m_title messageToSend;
     s_body := m_body messageToSend;
     s_data := m_data messageToSend;
     s_createdAt := m_createdAt messageToSend;
     s_sentAt := now;
     s_status := "sent";
     s_targetType := targetType;
     s_recipients := recipients |}.

(** POST /api/messages/send *)
Definition sendMessage (now : N) (sendRequest : obj) (s : db)
    : response * db :=
  if negb (truthy (sendRequest !! "messageId")) then
    (ValidationError "Message ID is required", s)
  else
    let pending := pendingMessages s in
    let sent := sentMessages s in
    let devs := devices s in
    if (length devs =? 0)%nat then (NotFound "No devices registered", s)
    else
      match list_find
              (λ m, Some (VStr (m_id m)) = sendRequest !! "messageId")
              pending with
      | None => (NotFound "Message not found", s)
      | Some (messageIndex, messageToSend) =>
          let s1 := savePendingMessages (delete messageIndex pending) s in
          let sentMessage :=
            to_sent now messageToSend None (to_recipient <$> devs) in
          (Success (MessageSent sentMessage),
           saveSentMessages (sent ++ [sentMessage]) s1)
      end.

(** [message.recipients[recipientIndex].readAt = ...; .status = "read"] *)
Definition mark_recipient (now : N) (r : recipient) : recipient :=
  {| r_deviceId := r_deviceId r;
     r_token := r_token r;
     r_userId := r_userId r;
     r_status := "read";
     r_readAt := Some now |}.

Definition set_recipients (rs : list recipient) (m : sent_message)
    : sent_message :=
  {| s_id := s_id m; s_title := s_title m; s_body := s_body m;
     s_data := s_data m; s_createdAt := s_createdAt m;
     s_sentAt := s_sentAt m; s_status := s_status m;
     s_targetType := s_targetType m; s_recipients := rs |}.

(** POST /api/messages/read *)
Definition markRead (now : N) (readRequest : obj) (s : db)
    : response * db :=
  if negb (truthy (readRequest !! "messageId"))
     || negb (truthy (readRequest !! "deviceId"))
  then (ValidationError "Message ID and Device ID are required", s)
  else
    let sent := sentMessages s in
    match list_find
            (λ m, Some (VStr (s_id m)) = readRequest !! "messageId")
            sent with
    | None => (NotFound "Message not found", s)
    | Some (messageIndex, message) =>
        match list_find
                (λ r, r_deviceId r = readRequest !! "deviceId")
                (s_recipients message) with
        | None => (NotFound "Recipient not found", s)
        | Some (recipientIndex, r) =>
            let message' :=
              set_recipients
                (<[recipientIndex := mark_recipient now r]>
                   (s_recipients message)) message in
            (Success MarkedRead,
             saveSentMessages (<[messageIndex := message']> sent) s)
        end
    end.

(** GET /api/broadcasts *)
Definition listBroadcasts (s : db) : response * db :=
  (Success (BroadcastList (broadcastMessages s)), s).

(** POST /api/broadcasts/send; [data] is the body's [data] property, an
    object when the body carries one. *)
Definition sendBroadcast (now : N) (broadcastData : obj) (data : option obj)
    (s : db) : response * db :=
  let title := broadcastData !! "title" in
  let message := broadcastData !! "message" in
  let type :=
    match broadcastData !! "type" with
    | None => Some (VStr "info")
    | Some t => Some t
    end in
  let data := default ∅ data in
  if negb (truthy title) || negb (truthy message) then
    (ValidationError "Title and message are required", s)
  else
    let devs := devices s in
    if (length devs =? 0)%nat then (NotFound "No devices registered", s)
    else
      let broadcastId := toString now in
      let broadcasts := broadcastMessages s in
      let newBroadcast :=
        {| b_id := broadcastId;
           b_title := title;
           b_message := message;
           b_type := type;
           b_data :=
             <["broadcastId" := VStr broadcastId]>
               (<["source" := VStr "broadcast"]> data);
           b_sentAt := now;
           b_recipients := (λ d : obj, d !! "id") <$> devs;
           b_receivedBy := [] |} in
      (Success (BroadcastSent broadcastId (length devs)),
       saveBroadcastMessages (broadcasts ++ [newBroadcast]) s).

(** [broadcasts[broadcastIndex].receivedBy.push(deviceId)] *)
Definition push_receivedBy (deviceId : option value) (b : broadcast)
    : broadcast :=
  {| b_id := b_id b; b_title := b_title b; b_message := b_message b;
     b_type := b_type b; b_data := b_data b; b_sentAt := b_sentAt b;
     b_recipients := b_recipients b;
     b_receivedBy := b_receivedBy b ++ [deviceId] |}.

(** POST /api/broadcasts/received *)
Definition markBroadcastReceived (receiveData : obj) (s : db)
    : response * db :=
  let broadcastId := receiveData !! "broadcastId" in
  let deviceId := receiveData !! "deviceId" in
  if negb (truthy broadcastId) || negb (truthy deviceId) then
    (ValidationError "Broadcast ID and Device ID are required", s)
  else
    let broadcasts := broadcastMessages s in
    match list_find (λ b, Some (VStr (b_id b)) = broadcastId) broadcasts with
    | None => (NotFound "Broadcast not found", s)
    | Some (broadcastIndex, b) =>
        if decide (deviceId ∈ b_receivedBy b) then
          (Success BroadcastReceived, s)
        else
          (Success BroadcastReceived,
           saveBroadcastMessages
             (<[broadcastIndex := push_receivedBy deviceId b]> broadcasts) s)
    end.

(** POST /api/messages/broadcasts/received, the alias path *)
Definition markBroadcastReceivedAlias (body : obj) (s : db)
    : response * db :=
  let broadcastId := body !! "broadcastId" in
  let deviceId := body !! "deviceId" in
  if negb (truthy broadcastId) || negb (truthy deviceId) then
    (ValidationError "Broadcast ID and Device ID are required", s)
  else
    let broadcasts := broadcastMessages s in
    match list_find (λ b, Some (VStr (b_id b)) = broadcastId) broadcasts with
    | None => (NotFound "Broadcast not found", s)
    | Some (broadcastIndex, b) =>
        if decide (deviceId ∈ b_receivedBy b) then
          (Success BroadcastReceived, s)
        else
          (Success BroadcastReceived,
           saveBroadcastMessages
             (<[broadcastIndex := push_receivedBy deviceId b]> broadcasts) s)
    end.

(** PUT /api/broadcasts *)
Definition putBroadcast (body : obj) (s : db) : response * db :=
  let id := body !! "id" in
  let deviceId := body !! "deviceId" in
  let status := body !! "status" in
  if negb (truthy id) then (ValidationError "Broadcast ID is required", s)
  else
    let broadcasts := broadcastMessages s in
    match list_find (λ b, Some (VStr (b_id b)) = id) broadcasts with
    | None => (NotFound "Broadcast not found", s)
    | Some (broadcastIndex, b) =>
        let broadcasts' :=
          if truthy deviceId && bool_decide (status = Some (VStr "received"))
          then
            if decide (deviceId ∈ b_receivedBy b) then broadcasts
            else <[broadcastIndex := push_receivedBy deviceId b]> broadcasts
          else broadcasts in
        (Success BroadcastUpdated, saveBroadcastMessages broadcasts' s)
    end.

(** PATCH /api/broadcasts *)
Definition patchBroadcast (body : obj) (s : db) : response * db :=
  let id := body !! "id" in
  let deviceId := body !! "deviceId" in
  let status := body !! "status" in
  if negb (truthy id) then (ValidationError "Broadcast ID is required", s)
  else
    let broadcasts := broadcastMessages s in
    match list_find (λ b, Some (VStr (b_id b)) = id) broadcasts with
    | None => (NotFound "Broadcast not found", s)
    | Some (broadcastIndex, b) =>
        let broadcasts' :=
          if truthy deviceId && bool_decide (status = Some (VStr "received"))
          then
            if decide (deviceId ∈ b_receivedBy b) then broadcasts
            else <[broadcastIndex := push_receivedBy deviceId b]> broadcasts
          else broadcasts in
        (Success BroadcastUpdated, saveBroadcastMessages broadcasts' s)
    end.

(** [targetUsers.includes(device.userId)]; a JSON array holds no
    [undefined]. *)
Definition includes (targetUsers : list value) (v : option value) : Prop :=
  v ∈ (Some <$> targetUsers).

#[global] Instance includes_dec l v : Decision (includes l v).
Proof. unfold includes. apply _. Defined.

(** [targetUsers && targetUsers.length > 0
      ? devices.filter((device) => targetUsers.includes(device.userId))
      : devices] *)
Definition select_devices (targetUsers : option (list value))
    (devs : list obj) : list obj :=
  match targetUsers with
  | Some (u :: us) =>
      filter (λ device : obj, includes (u :: us) (device !! "userId")) devs
  | _ => devs
  end.

(** POST /api/messages/send-targeted; [targetUsers] is the body's
    [targetUsers] property: an array of user identifiers, or [None] when
    the property is missing or null. *)
Definition sendTargeted (now : N) (body : obj)
    (targetUsers : option (list value)) (s : db) : response * db :=
  let messageId := body !! "messageId" in
  if negb (truthy messageId) then
    (ValidationError "Message ID is required", s)
  else
    let pending := pendingMessages s in
    match list_find (λ m, Some (VStr (m_id m)) = messageId) pending with
    | None => (NotFound "Message not found", s)
    | Some (messageIndex, messageToSend) =>
        let devs := devices s in
        let targetDevices := select_devices targetUsers devs in
        if (length targetDevices =? 0)%nat then
          (NotFound "No matching devices found for specified users", s)
        else
          let s1 := savePendingMessages (delete messageIndex pending) s in
          let sent := sentMessages s1 in
          let sentMessage :=
            to_sent now messageToSend
              (Some (match targetUsers with
                     | Some _ => "specific"
                     | None => "all"
                     end))
              (to_recipient <$> targetDevices) in
          (Success (TargetedSent (m_id messageToSend) (length targetDevices)),
           saveSentMessages (sent ++ [sentMessage]) s1)
    end.

(** GET /api/users: the [Map] from user identifier to user entry, in
    insertion order. *)
Definition add_user_device (usersMap : list user) (device : obj)
    : list user :=
  if truthy (device !! "userId") then
    match list_find (λ u, u_id u = device !! "userId") usersMap with
    | None =>
        usersMap ++
        [ {| u_id := device !! "userId";
             u_displayName :=
               js_or (device !! "deviceName") (device !! "userId");
             u_email := js_or (device !! "email") (Some VNull);
             u_deviceCount := 1;
             u_devices := [device !! "id"] |} ]
    | Some (i, u) =>
        <[i := {| u_id := u_id u;
                  u_displayName := u_displayName u;
                  u_email := u_email u;
                  u_deviceCount := u_deviceCount u + 1;
                  u_devices :=
                    if decide (device !! "id" ∈ u_devices u)
                    then u_devices u
                    else u_devices u ++ [device !! "id"] |}]> usersMap
    end
  else usersMap.

Definition listUsers (s : db) : response * db :=
  (Success (UserList (foldl add_user_device [] (devices s))), s).

(** GET /api/users/:userId *)
Definition getUser (userId : string) (s : db) : response * db :=
  let userDevices :=
    filter (λ device : obj, device !! "userId" = Some (VStr userId))
      (devices s) in
  if (length userDevices =? 0)%nat then (NotFound "User not found", s)
  else
    (Success
       (UserInfo (Some (VStr userId))
          (js_or (head userDevices ≫= λ d, d !! "deviceName")
                 (Some (VStr userId)))
          (js_or (head userDevices ≫= λ d, d !! "email") (Some VNull))
          (length userDevices)
          ((λ d : obj,
              set_prop "id" (d !! "id")
                (set_prop "platform" (d !! "platform")
                (set_prop "createdAt" (d !! "createdAt")
                (set_prop "lastSeen" (d !! "lastSeen") ∅))))
             <$> userDevices)), s).

(** GET /api/users/:userId/devices *)
Definition getUserDevices (userId : string) (s : db) : response * db :=
  let userDevices :=
    filter (λ device : obj, device !! "userId" = Some (VStr userId))
      (devices s) in
  if (length userDevices =? 0)%nat then (NotFound "User not found", s)
  else (Success (DeviceList userDevices), s).

(** The body of [userDevices.forEach((device) => { ... })] *)
Definition update_user_device (now : N) (userData : obj) (device : obj)
    : obj :=
  let device1 :=
    set_prop "email" (js_or (userData !! "email") (device !! "email"))
      device in
  let device2 :=
    set_prop "deviceName"
      (js_or (js_or (userData !! "displayName") (userData !! "email"))
             (device1 !! "deviceName"))
      device1 in
  let device3 := set_prop "lastSeen" (Some (toISOString now)) device2 in
  if truthy (userData !! "token")
  then set_prop "token" (userData !! "token") device3
  else device3.

(** POST /api/users *)
Definition upsertUser (now : N) (userData : obj) (s : db)
    : response * db :=
  if negb (truthy (userData !! "id")) then
    (ValidationError "User ID is required", s)
  else
    let devs := devices s in
    let userDevices :=
      filter (λ device : obj, device !! "userId" = userData !! "id") devs in
    if (length userDevices =? 0)%nat && truthy (userData !! "token") then
      let newDevice :=
        set_prop "id" (Some (VStr (toString now)))
          (set_prop "token" (userData !! "token")
          (set_prop "userId" (userData !! "id")
          (set_prop "platform"
             (js_or (userData !! "platform") (Some (VStr "unknown")))
          (set_prop "deviceName"
             (js_or (userData !! "deviceName") (userData !! "id"))
          (set_prop "email" (userData !! "email")
          (set_prop "createdAt" (Some (toISOString now))
          (set_prop "lastSeen" (Some (toISOString now)) ∅))))))) in
      (Success (UserUpserted "User updated" 1 (userData !! "id")),
       saveDevices (devs ++ [newDevice]) s)
    else if (0 <? length userDevices)%nat then
      let devs' :=
        (λ device : obj,
           if decide (device !! "userId" = userData !! "id")
           then update_user_device now userData device
           else device) <$> devs in
      (Success (UserUpserted "User updated" (length userDevices)
                  (userData !! "id")),
       saveDevices devs' s)
    else
      (Success (UserUpserted "User created" (length userDevices)
                  (userData !! "id")), s).

(** [broadcasts.sort((a, b) => new Date(b.sentAt) - new Date(a.sentAt))]:
    a stable sort, most recent first. *)
Fixpoint insert_recent (x : broadcast) (l : list broadcast)
    : list broadcast :=
  match l with
  | [] => [x]
  | y :: l' =>
      if (b_sentAt y <=? b_sentAt x)%N then x :: y :: l'
      else y :: insert_recent x l'
  end.

Definition sort_recent (l : list broadcast) : list broadcast :=
  foldr insert_recent [] l.

(** [.slice(0, n)] *)
Definition slice0 {A} (n : Z) (l : list A) : list A :=
  if (n <? 0)%Z then take (length l - Z.to_nat (- n)) l
  else take (Z.to_nat n) l.

(** GET /api/broadcasts/recent; [limit] is the parsed [limit] query
    parameter, 10 when the query has none.  The sort is in place: with
    the in-memory table ([production]) the stored collection is
    reordered, with the files it is not. *)
Definition recentBroadcasts (production : bool) (limit : option Z)
    (s : db) : response * db :=
  let broadcasts := sort_recent (broadcastMessages s) in
  (Success (BroadcastList (slice0 (default 10%Z limit) broadcasts)),
   if production then saveBroadcastMessages broadcasts s else s).

(** ** Requests and runs of the server *)

(** The routes that serve the collections.  The remaining routes (/,
    /health, /api/metadata, /api/debug) write nothing and are not
    listed. *)
Inductive request :=
  | PostDevices (device : obj)
  | GetDevices
  | PostMessages (message : obj) (data : option obj)
  | GetMessagesPending
  | GetMessagesSent
  | PostMessagesSend (sendRequest : obj)
  | PostMessagesRead (readRequest : obj)
  | GetBroadcasts
  | PostBroadcastsSend (broadcastData : obj) (data : option obj)
  | PostBroadcastsReceived (receiveData : obj)
  | PutBroadcasts (body : obj)
  | PatchBroadcasts (body : obj)
  | GetBroadcastDevices
  | PostMessagesSendTargeted (body : obj) (targetUsers : option (list value))
  | PostMessagesBroadcastsReceived (body : obj)
  | GetUsers
  | GetUser (userId : string)
  | GetUserDevices (userId : string)
  | PostUsers (userData : obj)
  | GetBroadcastsRecent (limit : option Z).

(** The route table: one request, served at clock reading [now]. *)
Definition handle (production : bool) (now : N) (req : request) (s : db)
    : response * db :=
  match req with
  | PostDevices device => registerDevice now device s
  | GetDevices => listDevices s
  | PostMessages message data => createMessage now message data s
  | GetMessagesPending => listPending s
  | GetMessagesSent => listSent s
  | PostMessagesSend sendRequest => sendMessage now sendRequest s
  | PostMessagesRead readRequest => markRead now readRequest s
  | GetBroadcasts => listBroadcasts s
  | PostBroadcastsSend broadcastData data =>
      sendBroadcast now broadcastData data s
  | PostBroadcastsReceived receiveData => markBroadcastReceived receiveData s
  | PutBroadcasts body => putBroadcast body s
  | PatchBroadcasts body => patchBroadcast body s
  | GetBroadcastDevices => listDevices s
  | PostMessagesSendTargeted body targetUsers =>
      sendTargeted now body targetUsers s
  | PostMessagesBroadcastsReceived body => markBroadcastReceivedAlias body s
  | GetUsers => listUsers s
  | GetUser userId => getUser userId s
  | GetUserDevices userId => getUserDevices userId s
  | PostUsers userData => upsertUser now userData s
  | GetBroadcastsRecent limit => recentBroadcasts production limit s
  end.

(** The states the server reaches from the empty collections when every
    request it serves is [allowed] in the state it is served in. *)
Inductive reachable_by (production : bool) (allowed : db → request → Prop)
    : db → Prop :=
  | reachable_start : reachable_by production allowed memoryDb
  | reachable_handle s now req :
      reachable_by production allowed s →
      allowed s req →
      reachable_by production allowed (handle production now req s).2.

Definition reachable (production : bool) : db → Prop :=
  reachable_by production (λ _ _, True).

(** The state after a sequence of requests, each with its clock reading. *)
Definition run (production : bool) (reqs : list (N * request)) (s : db)
    : db :=
  foldl (λ s r, (handle production r.1 r.2 s).2) s reqs.

(** ** Concrete bodies and states used by the examples *)

Definition body_of (l : list (string * value)) : obj := list_to_map l.

(** One pending message (created at instant 5) and no device. *)
Definition db_one_pending : db :=
  run false
    [(5%N, PostMessages
             (body_of [("title", VStr "A"); ("body", VStr "B")]) None)]
    memoryDb.

(** One pending message (instant 5) and one device (instant 6) of user
    "u1". *)
Definition db_pending_device : db :=
  run false
    [(6%N, PostDevices (body_of [("token", VStr "t1"); ("userId", VStr "u1")]))]
    db_one_pending.

(** * Properties *)

(** ** Basic facts about the handlers *)


Lemma length_zero_iff_nil' {A} (l : list A) :
  (length l =? 0)%nat = true ↔ l = [].
Proof. rewrite Nat.eqb_eq. apply length_zero_iff_nil. Qed.

Lemma select_devices_nil targetUsers devs :
  select_devices targetUsers devs = [] ↔
    (∃ u us, targetUsers = Some (u :: us) ∧
       ∀ d : obj, d ∈ devs → ¬ includes (u :: us) (d !! "userId")) ∨
    ((targetUsers = None ∨ targetUsers = Some []) ∧ devs = []).
Proof.
  unfold select_devices. destruct targetUsers as [[|u us]|].
  - split; [intros ->; right; eauto | intros [(? & ? & ? & _)|[_ ->]]; done].
  - split.
    + intros Hnil. left. exists u, us. split; [done|].
      intros d Hd Hin.
      assert (d ∈ filter (λ device : obj,
                includes (u :: us) (device !! "userId")) devs) as Hf
        by (apply list_elem_of_filter; done).
      rewrite Hnil in Hf. by apply not_elem_of_nil in Hf.
    + intros [(u' & us' & [= <- <-] & Hnone)|[[?|?] _]]; [|done..].
      induction devs as [|d devs IH]; [done|].
      rewrite filter_cons. destruct (decide _) as [Hin|_].
      * exfalso. eapply Hnone; [left|done].
      * apply IH. intros d' Hd'. apply Hnone. by right.
  - split; [intros ->; right; eauto | intros [(? & ? & ? & _)|[_ ->]]; done].
Qed.

(** ** Sending with nobody to send to *)

(** C4.  With an empty device registry, POST /api/messages/send with any
    message id answers NotFound "No devices registered", whether or not a
    pending message bears that id (the registry is looked at before the
    pending queue), and no collection changes. *)
Theorem sendMessage_no_devices now (sendRequest : obj) s :
  truthy (sendRequest !! "messageId") = true →
  devices s = [] →
  sendMessage now sendRequest s = (NotFound "No devices registered", s).
Proof.
  intros Hid Hdevs. unfold sendMessage. by rewrite Hid, Hdevs.
Qed.

Lemma sendMessage_no_devices_witness :
  (∃ m, m ∈ pendingMessages db_one_pending ∧ m_id m = "5") ∧
  sendMessage 7 (body_of [("messageId", VStr "5")]) db_one_pending
    = (NotFound "No devices registered", db_one_pending) ∧
  sendMessage 7 (body_of [("messageId", VStr "nope")]) db_one_pending
    = (NotFound "No devices registered", db_one_pending).
Proof.
  split; [|split].
  - eexists. split; [left|reflexivity].
  - apply sendMessage_no_devices; reflexivity.
  - apply sendMessage_no_devices; reflexivity.
Defined.

(** C3.  When a pending message bears the requested id and the selection
    of POST /api/messages/send-targeted is empty (a non-empty target list
    that no device's userId belongs to, or no device at all when every
    device is selected), the answer is NotFound and nothing changes: the
    message stays pending and the sent collection is as before. *)
Theorem sendTargeted_no_matching_devices now (body : obj) targetUsers s m :
  truthy (body !! "messageId") = true →
  m ∈ pendingMessages s →
  Some (VStr (m_id m)) = body !! "messageId" →
  (∃ u us, targetUsers = Some (u :: us) ∧
     ∀ d : obj, d ∈ devices s → ¬ includes (u :: us) (d !! "userId")) ∨
  ((targetUsers = None ∨ targetUsers = Some []) ∧ devices s = []) →
  let r := sendTargeted now body targetUsers s in
  r.1 = NotFound "No matching devices found for specified users" ∧
  r.2 = s ∧
  m ∈ pendingMessages r.2 ∧
  sentMessages r.2 = sentMessages s.
Proof.
  intros Hid Hm Heq Hsel. apply select_devices_nil in Hsel.
  assert (sendTargeted now body targetUsers s
          = (NotFound "No matching devices found for specified users", s))
    as ->; [|done].
  unfold sendTargeted. rewrite Hid. simpl.
  destruct (list_find _ _) as [[i m']|] eqn:Hfind.
  - by rewrite Hsel.
  - apply list_find_None in Hfind.
    rewrite Forall_forall in Hfind. by destruct (Hfind m Hm).
Qed.

Lemma sendTargeted_no_matching_devices_witness :
  let r := sendTargeted 9 (body_of [("messageId", VStr "5")])
             (Some [VStr "u9"]) db_pending_device in
  r.1 = NotFound "No matching devices found for specified users" ∧
  r.2 = db_pending_device ∧
  Message "5" (Some (VStr "A")) (Some (VStr "B")) ∅ 5 "pending"
    ∈ pendingMessages r.2 ∧
  sentMessages r.2 = sentMessages db_pending_device.
Proof.
  apply (sendTargeted_no_matching_devices 9
           (body_of [("messageId", VStr "5")]) (Some [VStr "u9"])
           db_pending_device
           (Message "5" (Some (VStr "A")) (Some (VStr "B")) ∅ 5 "pending")).
  - reflexivity.
  - left.
  - reflexivity.
  - left. exists (VStr "u9"), []. split; [reflexivity|].
    intros d Hd Hin. vm_compute in Hd.
    apply list_elem_of_singleton in Hd. subst d.
    apply list_elem_of_fmap in Hin as (v & Hv & Hin).
    apply list_elem_of_singleton in Hin. subst v. vm_compute in Hv. discriminate.
Defined.

(** ** Users without devices *)

(** C10.  POST /api/users for a user identifier that no device carries,
    with no push token in the body, answers success with the message
    "User created" and deviceCount 0, and leaves every collection, the
    devices among them, as it was. *)
Theorem upsertUser_no_device_no_token now (userData : obj) s :
  truthy (userData !! "id") = true →
  (∀ d : obj, d ∈ devices s → d !! "userId" ≠ userData !! "id") →
  truthy (userData !! "token") = false →
  let r := upsertUser now userData s in
  r.1 = Success (UserUpserted "User created" 0 (userData !! "id")) ∧
  status r.1 = 200 ∧
  r.2 = s ∧
  devices r.2 = devices s.
Proof.
  intros Hid Hnone Htok.
  assert (filter (λ device : obj, device !! "userId" = userData !! "id")
            (devices s) = []) as Hnil.
  { induction (devices s) as [|d l IH]; [done|].
    rewrite filter_cons. destruct (decide _) as [Heq|_].
    - exfalso. eapply Hnone; [left|done].
    - apply IH. intros d' Hd'. apply Hnone. by right. }
  unfold upsertUser. rewrite Hid, Hnil, Htok. done.
Qed.

Lemma upsertUser_no_device_no_token_witness :
  let r := upsertUser 9 (body_of [("id", VStr "u7"); ("email", VStr "e@x")])
             db_pending_device in
  r.1 = Success (UserUpserted "User created" 0 (Some (VStr "u7"))) ∧
  status r.1 = 200 ∧
  r.2 = db_pending_device ∧
  devices r.2 = devices db_pending_device.
Proof.
  apply (upsertUser_no_device_no_token 9
           (body_of [("id", VStr "u7"); ("email", VStr "e@x")])
           db_pending_device).
  - reflexivity.
  - intros d Hd. vm_compute in Hd.
    apply list_elem_of_singleton in Hd. subst d. vm_compute. discriminate.
  - reflexivity.
Defined.

(** ** The target type of a targeted send *)

(** What POST /api/messages/send-targeted does when it succeeds: the
    message found is taken out of the pending queue and one record is
    appended to the sent collection, tagged "specific" as soon as the body
    has a [targetUsers] array, empty or not. *)
Lemma sendTargeted_success now (body : obj) targetUsers s i m :
  truthy (body !! "messageId") = true →
  list_find (λ m, Some (VStr (m_id m)) = body !! "messageId")
    (pendingMessages s) = Some (i, m) →
  select_devices targetUsers (devices s) ≠ [] →
  sendTargeted now body targetUsers s =
    (Success (TargetedSent (m_id m)
                (length (select_devices targetUsers (devices s)))),
     Db (devices s) (delete i (pendingMessages s))
        (sentMessages s ++
         [to_sent now m
            (Some (match targetUsers with
                   | Some _ => "specific"
                   | None => "all"
                   end))
            (to_recipient <$> select_devices targetUsers (devices s))])
        (broadcastMessages s)).
Proof.
  intros Hid Hfind Hsel. unfold sendTargeted. rewrite Hid, Hfind. simpl.
  destruct (length _ =? 0)%nat eqn:Hlen; [|done].
  by apply length_zero_iff_nil' in Hlen.
Qed.

(** C5, at the input where the code departs from it.  With one pending
    message and one device, a targeted send whose [targetUsers] is the
    empty array goes to all devices, as the claim says, but the record is
    tagged "specific", not "all". *)
Theorem sendTargeted_empty_array_tagged_specific :
  let r := sendTargeted 9 (body_of [("messageId", VStr "5")]) (Some [])
             db_pending_device in
  r.1 = Success (TargetedSent "5" 1) ∧
  select_devices (Some []) (devices db_pending_device)
    = devices db_pending_device ∧
  ∃ sm, sentMessages r.2 = [sm] ∧
        s_recipients sm = to_recipient <$> devices db_pending_device ∧
        s_targetType sm = Some "specific".
Proof.
  split; [reflexivity|]. split; [reflexivity|].
  eexists. split; [reflexivity|]. split; reflexivity.
Qed.

(** ** Registering devices *)


Lemma lookup_set_prop_ne k k' v (o : obj) :
  k ≠ k' → set_prop k v o !! k' = o !! k'.
Proof.
  intros Hne. destruct v; simpl.
  - by rewrite lookup_insert_ne.
  - by rewrite lookup_delete_ne.
Qed.

Lemma lookup_set_prop_eq k v (o : obj) : set_prop k v o !! k = v.
Proof.
  destruct v; simpl.
  - by rewrite lookup_insert_eq.
  - by rewrite lookup_delete_eq.
Qed.






(** C9, at the input where the code departs from it.  A first
    registration at instant 100 whose body carries a [lastSeen] of its own
    (here the first instant of the year 2100) keeps the caller's value:
    the body is spread over the generated properties.  Registering the
    same token again at instant 200 leaves one record, as the claim says,
    and sets [lastSeen] to 200, which is earlier than the value it
    replaces. *)
Theorem registerDevice_lastSeen_moves_back :
  let first := body_of [("token", VStr "t1"); ("lastSeen", VDate 4102444800000)] in
  let again := body_of [("token", VStr "t1")] in
  let s1 := (registerDevice 100 first memoryDb).2 in
  let s2 := (registerDevice 200 again s1).2 in
  is_success (registerDevice 100 first memoryDb).1 = true ∧
  is_success (registerDevice 200 again s1).1 = true ∧
  length (devices s1) = 1 ∧
  length (devices s2) = 1 ∧
  (λ d : obj, d !! "lastSeen") <$> devices s1 = [Some (VDate 4102444800000)] ∧
  (λ d : obj, d !! "lastSeen") <$> devices s2 = [Some (VDate 200)] ∧
  (200 < 4102444800000)%N.
Proof. repeat split. Qed.

(** ** Runs *)

Lemma reachable_by_weaken production (allowed allowed' : db → request → Prop) s :
  (∀ s req, allowed s req → allowed' s req) →
  reachable_by production allowed s → reachable_by production allowed' s.
Proof.
  intros Himpl Hreach. induction Hreach as [|s now req _ IH Hallowed].
  - constructor.
  - constructor; [done|]. by apply Himpl.
Qed.

Lemma reachable_run production reqs s :
  reachable production s → reachable production (run production reqs s).
Proof.
  revert s. induction reqs as [|[now req] reqs IH]; intros s Hs; [done|].
  simpl. apply IH. by constructor.
Qed.

(** ** How the handlers change the broadcast collection *)

Lemma insert_recent_Permutation x l : insert_recent x l ≡ₚ x :: l.
Proof.
  induction l as [|y l IH]; [done|]. simpl.
  destruct (_ <=? _)%N; [done|]. rewrite IH. apply Permutation_swap.
Qed.

Lemma sort_recent_Permutation l : sort_recent l ≡ₚ l.
Proof.
  induction l as [|x l IH]; [done|]. unfold sort_recent in *. simpl.
  by rewrite insert_recent_Permutation, IH.
Qed.

(** The broadcast and the device named by a request that records a
    receipt. *)
Definition receipt_of (req : request) : option (option value * option value) :=
  match req with
  | PostBroadcastsReceived body | PostMessagesBroadcastsReceived body =>
      Some (body !! "broadcastId", body !! "deviceId")
  | PutBroadcasts body | PatchBroadcasts body =>
      if bool_decide (body !! "status" = Some (VStr "received"))
      then Some (body !! "id", body !! "deviceId")
      else None
  | _ => None
  end.

(** One request does one of four things to the broadcast collection:
    nothing; append a fresh broadcast, addressed to the identifiers of the
    current devices and received by nobody; push the device of a receipt
    onto the [receivedBy] of the first broadcast with the id of the
    receipt, when it is not there yet; sort the collection. *)
Inductive broadcast_change (s : db) (req : request)
    : list broadcast → Prop :=
  | change_none : broadcast_change s req (broadcastMessages s)
  | change_new b :
      b_receivedBy b = [] →
      b_recipients b = ((λ d : obj, d !! "id") <$> devices s) →
      broadcast_change s req (broadcastMessages s ++ [b])
  | change_receipt id deviceId i b :
      receipt_of req = Some (id, deviceId) →
      list_find (λ b, Some (VStr (b_id b)) = id) (broadcastMessages s)
        = Some (i, b) →
      deviceId ∉ b_receivedBy b →
      broadcast_change s req
        (<[i := push_receivedBy deviceId b]> (broadcastMessages s))
  | change_sort :
      broadcast_change s req (sort_recent (broadcastMessages s)).

Lemma handle_broadcast_change production now req s :
  broadcast_change s req (broadcastMessages (handle production now req s).2).
Proof.
  destruct req; simpl;
    unfold listDevices, listPending, listSent, listBroadcasts, listUsers,
      getUser, getUserDevices, registerDevice, createMessage, sendMessage,
      markRead, sendTargeted, upsertUser, sendBroadcast,
      markBroadcastReceived, markBroadcastReceivedAlias, putBroadcast,
      patchBroadcast, recentBroadcasts;
    repeat case_match; simpl; subst; try by econstructor.
  all: eapply change_receipt; [|done..]; simpl.
  all: match goal with H : _ && _ = true |- _ =>
         apply andb_true_iff in H as [_ ->] end; done.
Qed.

Lemma broadcast_change_Forall (P : broadcast → Prop) s req bs' :
  broadcast_change s req bs' →
  (∀ b, b_receivedBy b = [] → P b) →
  (∀ id deviceId i b,
     receipt_of req = Some (id, deviceId) →
     list_find (λ b, Some (VStr (b_id b)) = id) (broadcastMessages s)
       = Some (i, b) →
     deviceId ∉ b_receivedBy b →
     P b → P (push_receivedBy deviceId b)) →
  Forall P (broadcastMessages s) → Forall P bs'.
Proof.
  intros Hchange Hnew Hpush Hall.
  destruct Hchange as [|b Hb _|id deviceId i b Hreq Hfind Hnotin|].
  - done.
  - apply Forall_app. split; [done|]. apply Forall_singleton. by apply Hnew.
  - apply Forall_insert; [done|]. eapply Hpush; [done..|].
    apply list_find_Some in Hfind as (Hi & _).
    rewrite Forall_forall in Hall. apply Hall.
    by eapply list_elem_of_lookup_2.
  - by rewrite sort_recent_Permutation.
Qed.

Lemma list_find_insert_same {A} (P : A → Prop) `{∀ x, Decision (P x)}
    (l : list A) i x y :
  list_find P l = Some (i, x) → P y →
  list_find P (<[i := y]> l) = Some (i, y).
Proof.
  intros (Hi & Hx & Hbefore)%list_find_Some Hy. apply list_find_Some.
  split; [|split; [done|]].
  - apply list_lookup_insert_eq. by eapply lookup_lt_Some.
  - intros j z Hj Hlt. rewrite list_lookup_insert_ne in Hj by lia.
    by eapply Hbefore.
Qed.

Lemma saveBroadcastMessages_id s :
  saveBroadcastMessages (broadcastMessages s) s = s.
Proof. by destruct s. Qed.

(** ** Receipts of a broadcast *)








(** One device (instant 1, identifier "1") and one broadcast (instant 2,
    identifier "2") addressed to it. *)
Definition db_one_broadcast : db :=
  run false
    [(1%N, PostDevices (body_of [("token", VStr "t1")]));
     (2%N, PostBroadcastsSend
             (body_of [("title", VStr "T"); ("message", VStr "M")]) None)]
    memoryDb.


(** ** Receipts and recipients *)

(** A request that records a receipt names a device among the recipients
    of the broadcast it finds. *)
Definition names_recipient (s : db) (req : request) : Prop :=
  ∀ id deviceId i b,
    receipt_of req = Some (id, deviceId) →
    list_find (λ b, Some (VStr (b_id b)) = id) (broadcastMessages s)
      = Some (i, b) →
    deviceId ∈ b_recipients b.

(** Every request of the run is allowed in the state it is served in. *)
Fixpoint allowed_run (production : bool) (allowed : db → request → Prop)
    (reqs : list (N * request)) (s : db) : Prop :=
  match reqs with
  | [] => True
  | r :: reqs' =>
      allowed s r.2 ∧
      allowed_run production allowed reqs' (handle production r.1 r.2 s).2
  end.

Lemma reachable_by_run production allowed reqs s :
  reachable_by production allowed s →
  allowed_run production allowed reqs s →
  reachable_by production allowed (run production reqs s).
Proof.
  revert s. induction reqs as [|[now req] reqs IH]; intros s Hs Hrun; [done|].
  destruct Hrun as [Hreq Hrun]. simpl. apply IH; [|done]. by constructor.
Qed.

(** C6, as the code has it.  The receipt handlers do not look at the
    recipients of the broadcast.  A broadcast starts with an empty
    [receivedBy]; and in every state reached by requests whose receipts,
    through any of the four bindings, each name a device among the
    recipients of the broadcast they find, the [receivedBy] of every
    broadcast is included in its [recipients]. *)
Theorem receivedBy_within_recipients production s :
  reachable_by production names_recipient s →
  Forall (λ b, b_receivedBy b ⊆ b_recipients b) (broadcastMessages s).
Proof.
  induction 1 as [|s now req _ IH Hallowed]; [constructor|].
  eapply broadcast_change_Forall;
    [apply handle_broadcast_change| | |done].
  - intros b ->. apply list_subseteq_nil.
  - intros id deviceId i b Hreq Hfind _ Hsub. simpl.
    intros x [Hx| ->%list_elem_of_singleton]%elem_of_app.
    + by apply Hsub.
    + by eapply Hallowed.
Qed.

(** The run of [db_one_broadcast], followed by the receipt of the
    broadcast by its one recipient, through the POST and the PUT
    bindings. *)
Definition receipts_by_recipient : list (N * request) :=
  [(1%N, PostDevices (body_of [("token", VStr "t1")]));
   (2%N, PostBroadcastsSend
           (body_of [("title", VStr "T"); ("message", VStr "M")]) None);
   (3%N, PostBroadcastsReceived
           (body_of [("broadcastId", VStr "2"); ("deviceId", VStr "1")]));
   (4%N, PutBroadcasts
           (body_of [("id", VStr "2"); ("deviceId", VStr "1");
                     ("status", VStr "received")]))].

Lemma receivedBy_within_recipients_witness :
  Forall (λ b, b_receivedBy b ⊆ b_recipients b)
    (broadcastMessages (run false receipts_by_recipient memoryDb)) ∧
  b_receivedBy <$> broadcastMessages (run false receipts_by_recipient memoryDb)
    = [[Some (VStr "1")]].
Proof.
  split; [|reflexivity].
  apply (receivedBy_within_recipients false).
  apply reachable_by_run; [constructor|].
  repeat split; intros id deviceId i b Hreq Hfind;
    try discriminate Hreq.
  - injection Hreq as <- <-. vm_compute in Hfind.
    injection Hfind as <- <-. left.
  - injection Hreq as <- <-. vm_compute in Hfind.
    injection Hfind as <- <-. left.
Defined.

(** C6 fails as it is stated: after a device registers and a broadcast is
    sent to it, a receipt that names a device "ghost", which is not among
    the recipients, is recorded all the same. *)
Lemma receivedBy_outside_recipients :
  let s := run false
             [(3%N, PostBroadcastsReceived
                      (body_of [("broadcastId", VStr "2");
                                ("deviceId", VStr "ghost")]))]
             db_one_broadcast in
  reachable false s ∧
  b_recipients <$> broadcastMessages s = [[Some (VStr "1")]] ∧
  b_receivedBy <$> broadcastMessages s = [[Some (VStr "ghost")]] ∧
  ¬ Forall (λ b, b_receivedBy b ⊆ b_recipients b) (broadcastMessages s).
Proof.
  split; [|split; [reflexivity|split; [reflexivity|]]].
  - do 2 apply reachable_run. constructor.
  - intros Hall. apply Forall_inv in Hall.
    assert (Some (VStr "ghost") ∈ [Some (VStr "1")]) as Hin
      by (apply Hall; left).
    apply list_elem_of_singleton in Hin. discriminate Hin.
Qed.

(** ** The four bindings of the broadcast receipt *)

(** C8, as the code has it.  On every state and body, the alias
    POST /api/messages/broadcasts/received does what
    POST /api/broadcasts/received does, and PATCH /api/broadcasts does
    what PUT /api/broadcasts does.  PUT and PATCH read the broadcast id
    from [id], ask for no device id and record a receipt only when
    [status] is "received": on a body whose [id] is its [broadcastId],
    with a device id and the status "received", they leave the state that
    the POST bindings leave and answer with the same HTTP status, 400
    when the broadcast id is missing and 404 when no broadcast bears
    it. *)
Theorem receipt_bindings (body : obj) s :
  markBroadcastReceivedAlias body s = markBroadcastReceived body s ∧
  patchBroadcast body s = putBroadcast body s ∧
  (body !! "id" = body !! "broadcastId" →
   truthy (body !! "deviceId") = true →
   body !! "status" = Some (VStr "received") →
   let post := markBroadcastReceived body s in
   let put := putBroadcast body s in
   put.2 = post.2 ∧
   status put.1 = status post.1 ∧
   (truthy (body !! "broadcastId") = false → status post.1 = 400) ∧
   (truthy (body !! "broadcastId") = true →
    list_find (λ b, Some (VStr (b_id b)) = body !! "broadcastId")
      (broadcastMessages s) = None →
    status post.1 = 404)).
Proof.
  split; [done|]. split; [done|].
  intros Hid Hdev Hstatus. simpl.
  unfold putBroadcast, markBroadcastReceived.
  rewrite Hid, Hdev, Hstatus.
  destruct (truthy (body !! "broadcastId")); simpl; [|done].
  destruct (list_find _ _) as [[i b]|]; [|done].
  destruct (decide _); simpl; [|done].
  by rewrite saveBroadcastMessages_id.
Qed.

Lemma receipt_bindings_witness :
  let body := body_of [("broadcastId", VStr "2"); ("id", VStr "2");
                       ("deviceId", VStr "1"); ("status", VStr "received")] in
  (putBroadcast body db_one_broadcast).2
    = (markBroadcastReceived body db_one_broadcast).2 ∧
  b_receivedBy <$> broadcastMessages (putBroadcast body db_one_broadcast).2
    = [[Some (VStr "1")]].
Proof.
  pose (body := body_of [("broadcastId", VStr "2"); ("id", VStr "2");
                         ("deviceId", VStr "1"); ("status", VStr "received")]).
  destruct (receipt_bindings body db_one_broadcast) as (_ & _ & Hagree).
  destruct Hagree as (Hstate & _).
  - reflexivity.
  - reflexivity.
  - reflexivity.
  - split; [exact Hstate|reflexivity].
Defined.

(** C8 fails as it is stated.  On a body with the id of a broadcast and a
    device id but no [status], the POST binding records the receipt and
    the PUT binding does not; on a body with the id of a broadcast and no
    device id, the POST binding answers 400 and the PUT binding 200. *)
Lemma receipt_bindings_differ :
  let body := body_of [("broadcastId", VStr "2"); ("id", VStr "2");
                       ("deviceId", VStr "1")] in
  let body' := body_of [("broadcastId", VStr "2"); ("id", VStr "2")] in
  let post := markBroadcastReceived body db_one_broadcast in
  let put := putBroadcast body db_one_broadcast in
  (post.1 = Success BroadcastReceived ∧
   put.1 = Success BroadcastUpdated ∧
   b_receivedBy <$> broadcastMessages post.2 = [[Some (VStr "1")]] ∧
   b_receivedBy <$> broadcastMessages put.2 = [[]] ∧
   post.2 ≠ put.2) ∧
  (status (markBroadcastReceived body' db_one_broadcast).1 = 400 ∧
   status (putBroadcast body' db_one_broadcast).1 = 200).
Proof.
  split; [|split; reflexivity].
  split; [reflexivity|]. split; [reflexivity|].
  split; [reflexivity|]. split; [reflexivity|].
  intros Heq.
  apply (f_equal (λ s, b_receivedBy <$> broadcastMessages s)) in Heq.
  vm_compute in Heq. discriminate Heq.
Qed.

(** ** One record per token *)



(** Only POST /api/devices and POST /api/users write the devices. *)
Lemma handle_devices production now req s :
  match req with
  | PostDevices _ | PostUsers _ => True
  | _ => devices (handle production now req s).2 = devices s
  end.
Proof.
  destruct req; simpl; try done;
    unfold listDevices, listPending, listSent, listBroadcasts, listUsers,
      getUser, getUserDevices, createMessage, sendMessage, markRead,
      sendTargeted, sendBroadcast, markBroadcastReceived,
      markBroadcastReceivedAlias, putBroadcast, patchBroadcast,
      recentBroadcasts;
    repeat case_match; done.
Qed.







(** ** Sending a pending message *)

Lemma registerDevice_sentMessages now (device : obj) s :
  sentMessages (registerDevice now device s).2 = sentMessages s.
Proof. unfold registerDevice. by repeat case_match. Qed.

(** The state after a sequence of registrations, each with its clock
    reading. *)
Definition register_all (regs : list (N * obj)) (s : db) : db :=
  foldl (λ s r, (registerDevice r.1 r.2 s).2) s regs.

Lemma register_all_sentMessages regs s :
  sentMessages (register_all regs s) = sentMessages s.
Proof.
  unfold register_all. revert s.
  induction regs as [|[now device] regs IH]; intros s; [done|].
  simpl. rewrite IH. apply registerDevice_sentMessages.
Qed.

Lemma filter_nil_Forall {A} (P : A → Prop) `{∀ x, Decision (P x)} l :
  Forall (λ x, ¬ P x) l → filter P l = [].
Proof.
  induction 1 as [|x l Hx _ IH]; [done|].
  rewrite filter_cons. by destruct (decide (P x)).
Qed.

(** C1, as the code has it.  Message identifiers are clock readings, so
    two messages can bear the same one, and POST /api/messages/send takes
    the first pending message with the id.  Let [m] be a pending message
    whose id no other pending message and no sent record bears.  If
    POST /api/messages/send with that id answers success, then afterwards
    no pending message bears the id, so [m] is not pending; the sent
    collection holds exactly one record with the id, the record of the
    answer; its status is "sent"; its recipients are, in order, one entry
    for each device registered when the message is sent, each with status
    "sent" and no [readAt]; and registrations of devices after the send
    leave the sent collection, that record with it, as it is. *)
Theorem sendMessage_moves_message now (sendRequest : obj) s i m r s' :
  pendingMessages s !! i = Some m →
  sendRequest !! "messageId" = Some (VStr (m_id m)) →
  (∀ j m', pendingMessages s !! j = Some m' → m_id m' = m_id m → j = i) →
  (∀ sm, sm ∈ sentMessages s → s_id sm ≠ m_id m) →
  sendMessage now sendRequest s = (Success r, s') →
  (∀ m', m' ∈ pendingMessages s' → m_id m' ≠ m_id m) ∧
  (m ∉ pendingMessages s') ∧
  (∃ sm,
    r = MessageSent sm ∧
    filter (λ x, s_id x = m_id m) (sentMessages s') = [sm] ∧
    s_status sm = "sent" ∧
    s_recipients sm = to_recipient <$> devices s ∧
    length (s_recipients sm) = length (devices s) ∧
    Forall (λ rc, r_status rc = "sent" ∧ r_readAt rc = None)
      (s_recipients sm) ∧
    ∀ regs, sentMessages (register_all regs s') = sentMessages s').
Proof.
  intros Hi Hreq Hunique Hfresh Hsend.
  unfold sendMessage in Hsend. rewrite Hreq in Hsend.
  destruct (truthy _); simpl in Hsend; [|done].
  destruct (length (devices s) =? 0)%nat; [done|].
  destruct (list_find _ _) as [[k mk]|] eqn:Hfind; [|done].
  apply list_find_Some in Hfind as (Hk & [= Hid] & _).
  assert (k = i) as -> by eauto.
  assert (mk = m) as -> by congruence.
  injection Hsend as <- <-. simpl.
  assert (∀ m', m' ∈ delete i (pendingMessages s) → m_id m' ≠ m_id m)
    as Hgone.
  { intros m' (j & Hj)%list_elem_of_lookup_1 Hsame.
    destruct (decide (j < i)) as [Hlt|Hge].
    - rewrite list_lookup_delete_lt in Hj by done.
      specialize (Hunique _ _ Hj Hsame). lia.
    - rewrite list_lookup_delete_ge in Hj by lia.
      specialize (Hunique _ _ Hj Hsame). lia. }
  split; [done|]. split.
  { intros Hin. by eapply Hgone. }
  eexists. split; [done|]. split; [|split; [done|]].
  { rewrite filter_app, filter_nil_Forall.
    - simpl. rewrite filter_cons. simpl. by rewrite decide_True.
    - apply Forall_forall. intros sm Hsm. by apply Hfresh. }
  simpl. split; [done|]. split; [by rewrite length_fmap|]. split.
  - apply Forall_fmap, Forall_true. done.
  - intros regs. apply register_all_sentMessages.
Qed.

Lemma sendMessage_moves_message_witness :
  let send := sendMessage 7 (body_of [("messageId", VStr "5")])
                db_pending_device in
  pendingMessages send.2 = [] ∧
  (∃ sm, sentMessages send.2 = [sm] ∧
         send.1 = Success (MessageSent sm) ∧
         length (s_recipients sm) = 1) ∧
  sentMessages
    (register_all [(8%N, body_of [("token", VStr "t2")])] send.2)
    = sentMessages send.2.
Proof.
  pose (m := Message "5" (Some (VStr "A")) (Some (VStr "B")) ∅ 5 "pending").
  assert (∀ j m', pendingMessages db_pending_device !! j = Some m' →
                  m_id m' = m_id m → j = 0) as Hunique.
  { intros [|j] m' Hj _; [reflexivity|discriminate Hj]. }
  assert (∀ sm, sm ∈ sentMessages db_pending_device → s_id sm ≠ m_id m)
    as Hfresh.
  { intros sm Hsm. by apply not_elem_of_nil in Hsm. }
  destruct (sendMessage_moves_message 7
              (body_of [("messageId", VStr "5")]) db_pending_device 0 m
              _ _ eq_refl eq_refl Hunique Hfresh eq_refl)
    as (_ & _ & sm & _ & _ & _ & _ & _ & _ & Hlater).
  split; [reflexivity|]. split; [|apply Hlater].
  eexists. split; [reflexivity|]. split; reflexivity.
Defined.

(** C1 fails as it is stated.  Two messages composed at the same clock
    reading bear the same id.  Sending that id takes the first of them:
    the second, a pending message whose id was sent with success, is
    still pending; sending the id again leaves two sent records with the
    id. *)
Lemma sendMessage_same_id :
  let s := run false
             [(5%N, PostMessages
                      (body_of [("title", VStr "A"); ("body", VStr "B")]) None);
              (5%N, PostMessages
                      (body_of [("title", VStr "C"); ("body", VStr "D")]) None);
              (6%N, PostDevices (body_of [("token", VStr "t1")]))]
             memoryDb in
  let m := Message "5" (Some (VStr "C")) (Some (VStr "D")) ∅ 5 "pending" in
  let send := sendMessage 7 (body_of [("messageId", VStr (m_id m))]) s in
  let again := sendMessage 8 (body_of [("messageId", VStr (m_id m))]) send.2 in
  reachable false s ∧
  m ∈ pendingMessages s ∧
  is_success send.1 = true ∧
  m ∈ pendingMessages send.2 ∧
  is_success again.1 = true ∧
  length (filter (λ x, s_id x = m_id m) (sentMessages again.2)) = 2.
Proof.
  split; [apply reachable_run; constructor|].
  split; [right; left|]. split; [reflexivity|].
  split; [left|]. split; reflexivity.
Qed.

(** * Further properties of the handlers *)

(** ** Failures and read-only routes *)

Ltac unfold_handlers :=
  unfold listDevices, listPending, listSent, listBroadcasts, listUsers,
    getUser, getUserDevices, registerDevice, createMessage, sendMessage,
    markRead, sendTargeted, upsertUser, sendBroadcast,
    markBroadcastReceived, markBroadcastReceivedAlias, putBroadcast,
    patchBroadcast, recentBroadcasts.

(** X1.  Whatever the route, a request that is answered with an error
    (400 or 404) leaves the four collections as they were. *)
Theorem failure_changes_nothing production now req s :
  is_success (handle production now req s).1 = false →
  (handle production now req s).2 = s.
Proof.
  destruct req; simpl; unfold_handlers; repeat case_match; simpl; done.
Qed.

Lemma failure_changes_nothing_witness :
  let req := PostMessagesSendTargeted (body_of [("messageId", VStr "5")])
               (Some [VStr "u9"]) in
  status (handle true 9 req db_pending_device).1 = 404 ∧
  (handle true 9 req db_pending_device).2 = db_pending_device.
Proof.
  split; [reflexivity|].
  apply (failure_changes_nothing true 9
           (PostMessagesSendTargeted (body_of [("messageId", VStr "5")])
              (Some [VStr "u9"])) db_pending_device).
  reflexivity.
Defined.

(** The GET routes. *)
Definition is_get (req : request) : bool :=
  match req with
  | GetDevices | GetMessagesPending | GetMessagesSent | GetBroadcasts
  | GetBroadcastDevices | GetUsers | GetUser _ | GetUserDevices _
  | GetBroadcastsRecent _ => true
  | _ => false
  end.

(** X2.  A GET leaves the collections as they were, but for one case:
    with the in-memory table, GET /api/broadcasts/recent stores the
    broadcasts back in sorted order (the same records, reordered). *)
Theorem get_changes_nothing_but_order production now req s :
  is_get req = true →
  let s' := (handle production now req s).2 in
  s' = s ∨
  (production = true ∧
   (∃ limit, req = GetBroadcastsRecent limit) ∧
   s' = saveBroadcastMessages (sort_recent (broadcastMessages s)) s ∧
   broadcastMessages s' ≡ₚ broadcastMessages s).
Proof.
  intros Hget. destruct req; try discriminate Hget; simpl;
    unfold_handlers; repeat case_match; simpl; try by left.
  right. split; [done|]. split; [by eexists|]. split; [done|].
  apply sort_recent_Permutation.
Qed.

(** A device (instant 1) and two broadcasts, sent at instants 2 and 3. *)
Definition db_two_broadcasts : db :=
  run false
    [(3%N, PostBroadcastsSend
             (body_of [("title", VStr "T2"); ("message", VStr "M2")]) None)]
    db_one_broadcast.

Lemma get_changes_nothing_but_order_witness :
  (handle false 9 (GetBroadcastsRecent None) db_two_broadcasts).2
    = db_two_broadcasts ∧
  b_id <$> broadcastMessages db_two_broadcasts = ["2"; "3"] ∧
  b_id <$> broadcastMessages
             (handle true 9 (GetBroadcastsRecent None) db_two_broadcasts).2
    = ["3"; "2"].
Proof.
  split; [|split; reflexivity].
  destruct (get_changes_nothing_but_order false 9 (GetBroadcastsRecent None)
              db_two_broadcasts) as [Hsame|(Hprod & _)].
  - reflexivity.
  - exact Hsame.
  - discriminate Hprod.
Defined.

(** ** Recent broadcasts *)

(** [a] was sent no earlier than [b]. *)
Definition more_recent (a b : broadcast) : Prop :=
  (b_sentAt b ≤ b_sentAt a)%N.

Lemma insert_recent_sorted x l :
  StronglySorted more_recent l → StronglySorted more_recent (insert_recent x l).
Proof.
  induction 1 as [|y l Hl IH Hy]; simpl.
  - repeat constructor.
  - destruct (_ <=? _)%N eqn:Hle.
    + apply N.leb_le in Hle. constructor; [by constructor|].
      constructor; [done|].
      eapply Forall_impl; [exact Hy|]. unfold more_recent. intros; lia.
    + apply N.leb_gt in Hle. constructor; [done|].
      rewrite insert_recent_Permutation. constructor; [|done].
      unfold more_recent. lia.
Qed.

Lemma sort_recent_sorted l : StronglySorted more_recent (sort_recent l).
Proof.
  induction l as [|x l IH]; [constructor|]. by apply insert_recent_sorted.
Qed.

Lemma sort_recent_of_sorted l :
  StronglySorted more_recent l → sort_recent l = l.
Proof.
  induction 1 as [|x l Hl IH Hx]; [done|].
  unfold sort_recent in *. simpl. rewrite IH.
  destruct l as [|y l]; [done|]. simpl.
  apply Forall_inv in Hx. unfold more_recent in Hx.
  apply N.leb_le in Hx. by rewrite Hx.
Qed.

Lemma insert_recent_filter t x l :
  filter (λ b, b_sentAt b = t) (insert_recent x l)
  = filter (λ b, b_sentAt b = t) (x :: l).
Proof.
  induction l as [|y l IH]; [done|]. simpl.
  destruct (_ <=? _)%N eqn:Hle; [done|]. apply N.leb_gt in Hle.
  rewrite (filter_cons _ y), IH, !filter_cons.
  repeat case_decide; try done; lia.
Qed.

(** X3.  GET /api/broadcasts/recent answers with the first broadcasts of
    the stored ones put most recent first: with [n] the limit (10 when
    the query has none), the [n] most recent when [n] is not negative,
    and all but the [-n] least recent when it is. *)
Theorem recentBroadcasts_most_recent production limit s :
  ∃ recent rest,
    (recentBroadcasts production limit s).1 = Success (BroadcastList recent) ∧
    recent ++ rest ≡ₚ broadcastMessages s ∧
    StronglySorted more_recent (recent ++ rest) ∧
    length recent =
      let n := default 10%Z limit in
      if (n <? 0)%Z
      then length (broadcastMessages s) - Z.to_nat (- n)
      else Z.to_nat n `min` length (broadcastMessages s).
Proof.
  pose proof (sort_recent_Permutation (broadcastMessages s)) as Hperm.
  pose proof (sort_recent_sorted (broadcastMessages s)) as Hsorted.
  unfold recentBroadcasts, slice0. simpl.
  destruct (_ <? 0)%Z.
  - eexists _, (drop _ (sort_recent (broadcastMessages s))).
    split; [done|]. rewrite take_drop. split; [done|]. split; [done|].
    rewrite length_take, Hperm. lia.
  - eexists _, (drop _ (sort_recent (broadcastMessages s))).
    split; [done|]. rewrite take_drop. split; [done|]. split; [done|].
    by rewrite length_take, Hperm.
Qed.

(** X4.  The sort of GET /api/broadcasts/recent keeps the stored order of
    broadcasts sent at the same instant, and sorting again changes
    nothing: with the in-memory table, a second GET leaves the
    collections as the first one left them. *)
Theorem recentBroadcasts_stable production limit limit' t s :
  filter (λ b, b_sentAt b = t) (sort_recent (broadcastMessages s))
    = filter (λ b, b_sentAt b = t) (broadcastMessages s) ∧
  (recentBroadcasts production limit'
     (recentBroadcasts production limit s).2).2
    = (recentBroadcasts production limit s).2.
Proof.
  split.
  - induction (broadcastMessages s) as [|x l IH]; [done|].
    unfold sort_recent in *. simpl.
    by rewrite insert_recent_filter, !filter_cons, IH.
  - unfold recentBroadcasts. destruct production; simpl; [|done].
    by rewrite sort_recent_of_sorted by apply sort_recent_sorted.
Qed.

(** ** How the handlers change the pending and the sent messages *)

(** One request served at [now] does one of four things to the two
    message collections: nothing; append a pending message composed at
    [now]; take a pending message out and append its sent record,
    addressed to some of the devices, at least one; mark one recipient of
    one sent record as read at [now]. *)
Inductive message_change (now : N) (s : db)
    : list message → list sent_message → Prop :=
  | messages_same :
      message_change now s (pendingMessages s) (sentMessages s)
  | message_created m :
      m_id m = toString now → m_status m = "pending" →
      message_change now s (pendingMessages s ++ [m]) (sentMessages s)
  | message_sent i m targetType devs :
      pendingMessages s !! i = Some m →
      devs ≠ [] → devs `sublist_of` devices s →
      message_change now s (delete i (pendingMessages s))
        (sentMessages s ++ [to_sent now m targetType (to_recipient <$> devs)])
  | message_read i m j r :
      sentMessages s !! i = Some m →
      s_recipients m !! j = Some r →
      message_change now s (pendingMessages s)
        (<[i := set_recipients
                  (<[j := mark_recipient now r]> (s_recipients m)) m]>
           (sentMessages s)).

Lemma select_devices_sublist targetUsers devs :
  select_devices targetUsers devs `sublist_of` devs.
Proof.
  unfold select_devices. destruct targetUsers as [[|u us]|]; try done.
  apply sublist_filter.
Qed.

#[local] Arguments select_devices : simpl never.

Lemma handle_message_change production now req s :
  message_change now s (pendingMessages (handle production now req s).2)
    (sentMessages (handle production now req s).2).
Proof.
  destruct req; simpl; unfold_handlers; repeat case_match; simpl; subst;
    try by constructor.
  all: repeat match goal with H : list_find _ _ = Some _ |- _ =>
         apply list_find_Some in H as (? & _) end.
  all: try by eapply message_read.
  all: apply message_sent;
         [done| |first [apply select_devices_sublist | done]].
  all: intros Hnil; by rewrite Hnil in *.
Qed.

(** The identifiers of the messages the server holds, pending or sent. *)
Definition message_ids (s : db) : list string :=
  (m_id <$> pendingMessages s) ++ (s_id <$> sentMessages s).

(** X5.  No request loses or duplicates a message: after any request the
    server holds, pending or sent, the identifiers it held before, each
    as many times as before, and at most one more, the clock reading of
    the request, for a message just composed. *)
Theorem messages_are_conserved production now req s :
  let s' := (handle production now req s).2 in
  message_ids s' ≡ₚ message_ids s ∨
  message_ids s' ≡ₚ toString now :: message_ids s.
Proof.
  simpl. unfold message_ids.
  destruct (handle_message_change production now req s)
    as [|m Hid _|i m targetType devs Hi _ _|i m j r Hi Hj].
  - by left.
  - right. rewrite fmap_app. simpl. rewrite Hid, <- (assoc (++)). simpl.
    symmetry. apply Permutation_middle.
  - left. rewrite fmap_app. simpl.
    assert (m_id <$> pendingMessages s
            ≡ₚ m_id m :: (m_id <$> delete i (pendingMessages s))) as ->.
    { by rewrite (delete_Permutation (pendingMessages s) i m Hi) at 1. }
    simpl. by rewrite (assoc (++)), <- Permutation_cons_append.
  - left. rewrite list_fmap_insert. simpl.
    rewrite list_insert_id; [done|]. by rewrite list_lookup_fmap, Hi.
Qed.

(** ** The life of a sent record *)

(** A recipient entry later on: the same device, token and user; and
    either the same entry or one with status "read". *)
Definition recipient_evolves (r r' : recipient) : Prop :=
  r_deviceId r' = r_deviceId r ∧ r_token r' = r_token r ∧
  r_userId r' = r_userId r ∧
  (r' = r ∨ r_status r' = "read").

(** A sent record later on: the same but for its recipients, which are
    as many, each the later form of the one at its place. *)
Definition sent_evolves (m m' : sent_message) : Prop :=
  set_recipients [] m' = set_recipients [] m ∧
  Forall2 recipient_evolves (s_recipients m) (s_recipients m').

Lemma recipient_evolves_refl r : recipient_evolves r r.
Proof. repeat split; by left. Qed.

Lemma sent_evolves_refl m : sent_evolves m m.
Proof.
  split; [done|]. apply Forall_Forall2_diag, Forall_true.
  apply recipient_evolves_refl.
Qed.

(** X6.  Sent records are never removed, reordered or rewritten, whatever
    the request: afterwards the sent collection is the former one, record
    by record, followed by at most one new record; a former record
    differs at most in recipients that have become "read", and keeps for
    each recipient the device id, token and user id it was sent with,
    even when the device has changed since. *)
Theorem sent_records_only_gain_reads production now req s :
  ∃ old new,
    sentMessages (handle production now req s).2 = old ++ new ∧
    Forall2 sent_evolves (sentMessages s) old ∧
    length new ≤ 1.
Proof.
  destruct (handle_message_change production now req s)
    as [|m _ _|i m targetType devs _ _ _|i m j r Hi Hj].
  - exists (sentMessages s), []. rewrite app_nil_r. split; [done|].
    split; [|simpl; lia].
    apply Forall_Forall2_diag, Forall_true, sent_evolves_refl.
  - exists (sentMessages s), []. rewrite app_nil_r. split; [done|].
    split; [|simpl; lia].
    apply Forall_Forall2_diag, Forall_true, sent_evolves_refl.
  - eexists (sentMessages s), [_]. split; [done|]. split; [|simpl; lia].
    apply Forall_Forall2_diag, Forall_true, sent_evolves_refl.
  - eexists _, []. rewrite app_nil_r. split; [done|]. split; [|simpl; lia].
    rewrite <- (list_insert_id (sentMessages s) i m Hi) at 1.
    apply Forall2_insert.
    { apply Forall_Forall2_diag, Forall_true, sent_evolves_refl. }
    split; [done|]. simpl.
    rewrite <- (list_insert_id (s_recipients m) j r Hj) at 1.
    apply Forall2_insert.
    { apply Forall_Forall2_diag, Forall_true, recipient_evolves_refl. }
    repeat split; by right.
Qed.

(** A recipient entry is either unread, with status "sent" and no
    [readAt], or read, with status "read" and a [readAt]. *)
Definition recipient_ok (r : recipient) : Prop :=
  (r_status r = "sent" ∧ r_readAt r = None) ∨
  (r_status r = "read" ∧ is_Some (r_readAt r)).

Definition sent_ok (m : sent_message) : Prop :=
  s_status m = "sent" ∧ s_recipients m ≠ [] ∧
  Forall recipient_ok (s_recipients m).

Lemma reachable_messages_ok production s :
  reachable production s →
  Forall (λ m, m_status m = "pending") (pendingMessages s) ∧
  Forall sent_ok (sentMessages s).
Proof.
  induction 1 as [|s now req _ [IHp IHs] _]; [by split; constructor|].
  destruct (handle_message_change production now req s)
    as [|m _ Hstatus|i m targetType devs _ Hdevs _|i m j r Hi Hj].
  - done.
  - split; [|done]. apply Forall_app. by split; [|constructor].
  - split; [by apply Forall_delete|].
    apply Forall_app. split; [done|]. constructor; [|constructor].
    split; [done|]. simpl. split.
    + by destruct devs.
    + apply Forall_fmap, Forall_true. intros d. by left.
  - split; [done|]. apply Forall_insert; [done|].
    rewrite Forall_forall in IHs.
    destruct (IHs m) as (Hst & Hne & Hok);
      [by eapply list_elem_of_lookup_2|].
    split; [done|]. simpl. split.
    + intros Hnil. apply (f_equal length) in Hnil.
      rewrite length_insert in Hnil. by destruct (s_recipients m).
    + apply Forall_insert; [done|]. right. split; [done|]. by eexists.
Qed.

(** X7.  In every state the server reaches, every pending message has
    status "pending", every sent record has status "sent", and every
    recipient entry is either unread (status "sent", no [readAt]) or read
    (status "read", with a [readAt]). *)
Theorem statuses_are_consistent production s :
  reachable production s →
  Forall (λ m, m_status m = "pending") (pendingMessages s) ∧
  Forall (λ m, s_status m = "sent" ∧ Forall recipient_ok (s_recipients m))
    (sentMessages s).
Proof.
  intros [Hp Hs]%reachable_messages_ok. split; [done|].
  eapply Forall_impl; [exact Hs|]. by intros m (? & _ & ?).
Qed.

(** One pending message, one device, the message sent (instant 7) and
    read by the device (instant 9). *)
Definition db_sent_read : db :=
  run false
    [(7%N, PostMessagesSend (body_of [("messageId", VStr "5")]));
     (9%N, PostMessagesRead
             (body_of [("messageId", VStr "5"); ("deviceId", VStr "6")]))]
    db_pending_device.

Lemma statuses_are_consistent_witness :
  (s_recipients <$> sentMessages db_sent_read)
    = [[Recipient (Some (VStr "6")) (Some (VStr "t1")) (Some (VStr "u1"))
          "read" (Some 9%N)]] ∧
  Forall (λ m, s_status m = "sent" ∧ Forall recipient_ok (s_recipients m))
    (sentMessages db_sent_read).
Proof.
  split; [reflexivity|].
  apply (statuses_are_consistent false db_sent_read).
  do 3 apply reachable_run. constructor.
Defined.

(** ** Recipients of what was sent *)

Lemma handle_broadcast_recipients production now req s :
  Forall (λ b, b_recipients b ≠ []) (broadcastMessages s) →
  Forall (λ b, b_recipients b ≠ [])
    (broadcastMessages (handle production now req s).2).
Proof.
  intros Hall.
  destruct req; simpl; unfold_handlers; repeat case_match; simpl; subst;
    try done.
  all: repeat match goal with H : list_find _ _ = Some _ |- _ =>
         apply list_find_Some in H as (? & _) end.
  all: try (apply Forall_insert; [done|]; simpl;
            rewrite Forall_forall in Hall; apply Hall;
            by eapply list_elem_of_lookup_2).
  all: try by rewrite sort_recent_Permutation.
  all: apply Forall_app; split; [done|]; constructor; [|constructor]; simpl.
  all: by destruct (devices s).
Qed.

(** X8.  Nothing is recorded as sent to nobody: in every state the server
    reaches, every sent record has at least one recipient entry and every
    broadcast at least one recipient. *)
Theorem sent_to_somebody production s :
  reachable production s →
  Forall (λ m, s_recipients m ≠ []) (sentMessages s) ∧
  Forall (λ b, b_recipients b ≠ []) (broadcastMessages s).
Proof.
  intros Hreach. split.
  - apply reachable_messages_ok in Hreach as [_ Hs].
    eapply Forall_impl; [exact Hs|]. by intros m (_ & ? & _).
  - induction Hreach as [|s now req _ IH _]; [constructor|].
    by apply handle_broadcast_recipients.
Qed.

Lemma sent_to_somebody_witness :
  Forall (λ m, s_recipients m ≠ []) (sentMessages db_sent_read) ∧
  Forall (λ b, b_recipients b ≠ []) (broadcastMessages db_two_broadcasts).
Proof.
  split.
  - apply (sent_to_somebody false db_sent_read).
    do 3 apply reachable_run. constructor.
  - apply (sent_to_somebody false db_two_broadcasts).
    do 2 apply reachable_run. constructor.
Defined.

(** [b'] is [b] but for its [receivedBy], which starts with that of
    [b]. *)
Definition broadcast_evolves (b b' : broadcast) : Prop :=
  b' = {| b_id := b_id b; b_title := b_title b; b_message := b_message b;
          b_type := b_type b; b_data := b_data b; b_sentAt := b_sentAt b;
          b_recipients := b_recipients b;
          b_receivedBy := b_receivedBy b' |} ∧
  b_receivedBy b `prefix_of` b_receivedBy b'.

Lemma broadcast_evolves_refl b : broadcast_evolves b b.
Proof. split; [by destruct b|done]. Qed.

(** X9.  Broadcasts are never removed or rewritten, whatever the request:
    every broadcast held before is held afterwards with the same id,
    texts, data, instant and recipients, and with a [receivedBy] that
    starts with the former one; and at most one broadcast is added. *)
Theorem broadcasts_only_gain_receipts production now req s :
  let bs' := broadcastMessages (handle production now req s).2 in
  (∀ b, b ∈ broadcastMessages s → ∃ b', b' ∈ bs' ∧ broadcast_evolves b b') ∧
  length (broadcastMessages s) ≤ length bs' ≤ S (length (broadcastMessages s)).
Proof.
  simpl.
  destruct (handle_broadcast_change production now req s)
    as [|b0 _ _|id deviceId i b0 _ Hfind _|].
  - split; [|lia]. intros b Hb. exists b. split; [done|].
    apply broadcast_evolves_refl.
  - split; [|rewrite length_app; simpl; lia]. intros b Hb. exists b.
    split; [apply elem_of_app; by left|apply broadcast_evolves_refl].
  - split; [|rewrite length_insert; lia].
    apply list_find_Some in Hfind as (Hi & _).
    intros b (k & Hk)%list_elem_of_lookup_1.
    destruct (decide (k = i)) as [->|Hne].
    + exists (push_receivedBy deviceId b0).
      assert (b = b0) as -> by congruence. split.
      * eapply list_elem_of_lookup_2, list_lookup_insert_eq.
        by eapply lookup_lt_Some.
      * split; [done|]. simpl. by apply prefix_app_r.
    + exists b. split; [|apply broadcast_evolves_refl].
      eapply list_elem_of_lookup_2. by rewrite list_lookup_insert_ne.
  - split; [|rewrite sort_recent_Permutation; lia].
    intros b Hb. exists b. split; [|apply broadcast_evolves_refl].
    by rewrite sort_recent_Permutation.
Qed.

(** ** The device registry over time *)

(** X10.  Devices are never removed: no request makes the registry
    shorter, none adds more than one record, and only POST /api/devices
    and POST /api/users change it at all. *)
Theorem devices_are_never_removed production now req s :
  let ds' := devices (handle production now req s).2 in
  length (devices s) ≤ length ds' ≤ S (length (devices s)) ∧
  match req with
  | PostDevices _ | PostUsers _ => True
  | _ => ds' = devices s
  end.
Proof.
  simpl. split; [|apply handle_devices].
  pose proof (handle_devices production now req s) as Hdevs.
  destruct req; try (rewrite Hdevs; lia); simpl.
  - unfold registerDevice. repeat case_match; simpl;
      rewrite ?length_app, ?length_insert; simpl; lia.
  - unfold upsertUser. repeat case_match; simpl;
      rewrite ?length_app, ?length_fmap; simpl; lia.
Qed.

(** ** Marking a message as read *)

(** The read handler, once the sent record and the recipient entry are
    found. *)
Lemma markRead_found now (readRequest : obj) s i m j r :
  truthy (readRequest !! "messageId") = true →
  truthy (readRequest !! "deviceId") = true →
  list_find (λ m, Some (VStr (s_id m)) = readRequest !! "messageId")
    (sentMessages s) = Some (i, m) →
  list_find (λ r, r_deviceId r = readRequest !! "deviceId")
    (s_recipients m) = Some (j, r) →
  markRead now readRequest s =
    (Success MarkedRead,
     saveSentMessages
       (<[i := set_recipients
                 (<[j := mark_recipient now r]> (s_recipients m)) m]>
          (sentMessages s)) s).
Proof.
  intros Hid Hdev Hm Hr. unfold markRead. by rewrite Hid, Hdev, Hm, Hr.
Qed.

Lemma markRead_success now (readRequest : obj) s :
  is_success (markRead now readRequest s).1 = true →
  ∃ i m j r,
    truthy (readRequest !! "messageId") = true ∧
    truthy (readRequest !! "deviceId") = true ∧
    list_find (λ m, Some (VStr (s_id m)) = readRequest !! "messageId")
      (sentMessages s) = Some (i, m) ∧
    list_find (λ r, r_deviceId r = readRequest !! "deviceId")
      (s_recipients m) = Some (j, r).
Proof.
  unfold markRead.
  destruct (truthy (readRequest !! "messageId")); [|done].
  destruct (truthy (readRequest !! "deviceId")); [|done]. simpl.
  destruct (list_find _ (sentMessages s)) as [[i m]|]; [|done].
  destruct (list_find _ (s_recipients m)) as [[j r]|] eqn:Hr; [|done].
  intros _. by exists i, m, j, r.
Qed.

(** X11.  Marking as read again succeeds and only moves [readAt]: after
    a successful POST /api/messages/read, the same request at a later
    clock reading answers and leaves the state as if it were the only
    one. *)
Theorem markRead_again now now' (readRequest : obj) s :
  is_success (markRead now readRequest s).1 = true →
  markRead now' readRequest (markRead now readRequest s).2
    = markRead now' readRequest s.
Proof.
  intros (i & m & j & r & Hid & Hdev & Hm & Hr)%markRead_success.
  rewrite (markRead_found now _ _ _ _ _ _ Hid Hdev Hm Hr).
  rewrite (markRead_found now' _ _ _ _ _ _ Hid Hdev Hm Hr). simpl.
  pose proof Hm as (_ & Hmid & _)%list_find_Some.
  pose proof Hr as (_ & Hrid & _)%list_find_Some.
  pose proof (list_find_insert_same _ _ i m
    (set_recipients (<[j := mark_recipient now r]> (s_recipients m)) m)
    Hm Hmid) as Hm'.
  pose proof (list_find_insert_same _ _ j r (mark_recipient now r) Hr Hrid)
    as Hr'.
  rewrite (markRead_found now' readRequest (saveSentMessages _ s) _ _ _ _
             Hid Hdev Hm' Hr'). simpl.
  by rewrite !list_insert_insert_eq.
Qed.

Lemma markRead_again_witness :
  let readRequest := body_of [("messageId", VStr "5"); ("deviceId", VStr "6")] in
  markRead 12 readRequest db_sent_read
    = markRead 12 readRequest
        (run false [(7%N, PostMessagesSend (body_of [("messageId", VStr "5")]))]
           db_pending_device) ∧
  (λ m, r_readAt <$> s_recipients m) <$>
     sentMessages (markRead 12 readRequest db_sent_read).2
    = [[Some 12%N]].
Proof.
  split; [|reflexivity].
  apply (markRead_again 9 12
    (body_of [("messageId", VStr "5"); ("deviceId", VStr "6")])
    (run false [(7%N, PostMessagesSend (body_of [("messageId", VStr "5")]))]
       db_pending_device)).
  reflexivity.
Defined.

(** ** Targeted sends *)

Lemma sendTargeted_success_inv now (body : obj) targetUsers s :
  is_success (sendTargeted now body targetUsers s).1 = true →
  ∃ i m,
    truthy (body !! "messageId") = true ∧
    list_find (λ m, Some (VStr (m_id m)) = body !! "messageId")
      (pendingMessages s) = Some (i, m) ∧
    select_devices targetUsers (devices s) ≠ [].
Proof.
  unfold sendTargeted.
  destruct (truthy (body !! "messageId")); [|done]. simpl.
  destruct (list_find _ _) as [[i m]|]; [|done].
  destruct (length _ =? 0)%nat eqn:Hlen; [done|].
  intros _. exists i, m. split; [done|]. split; [done|].
  intros Hnil. by rewrite Hnil in Hlen.
Qed.

(** X12.  A send targeted at a non-empty list of users reaches the
    devices of those users and no other: the record it appends has, in
    the order of the registry, one recipient entry for each device whose
    userId is in the list, every entry bears a userId of the list, and
    the answer counts the entries. *)
Theorem sendTargeted_reaches_targets now (body : obj) u us s :
  let r := sendTargeted now body (Some (u :: us)) s in
  is_success r.1 = true →
  ∃ sm,
    sentMessages r.2 = sentMessages s ++ [sm] ∧
    r.1 = Success (TargetedSent (s_id sm) (length (s_recipients sm))) ∧
    s_recipients sm =
      to_recipient <$>
        filter (λ d : obj, includes (u :: us) (d !! "userId")) (devices s) ∧
    (∀ rc, rc ∈ s_recipients sm → includes (u :: us) (r_userId rc)) ∧
    (∀ d : obj, d ∈ devices s → includes (u :: us) (d !! "userId") →
       to_recipient d ∈ s_recipients sm).
Proof.
  intros r (i & m & Hid & Hfind & Hsel)%sendTargeted_success_inv. subst r.
  rewrite (sendTargeted_success _ _ _ _ _ _ Hid Hfind Hsel). simpl.
  eexists. split; [done|]. simpl. split; [by rewrite length_fmap|].
  split; [done|]. split.
  - intros rc (d & -> & Hd)%list_elem_of_fmap.
    by apply list_elem_of_filter in Hd as [? _].
  - intros d Hd Hin. apply list_elem_of_fmap. exists d. split; [done|].
    by apply list_elem_of_filter.
Qed.

(** The device of "u1" (instant 6), a device of "u2" (instant 7), and the
    message composed at instant 5, pending. *)
Definition db_two_users : db :=
  run false
    [(7%N, PostDevices (body_of [("token", VStr "t2"); ("userId", VStr "u2")]))]
    db_pending_device.

Lemma sendTargeted_reaches_targets_witness :
  let r := sendTargeted 9 (body_of [("messageId", VStr "5")])
             (Some [VStr "u2"; VStr "u9"]) db_two_users in
  r.1 = Success (TargetedSent "5" 1) ∧
  (λ m, r_userId <$> s_recipients m) <$> sentMessages r.2
    = [[Some (VStr "u2")]].
Proof.
  destruct (sendTargeted_reaches_targets 9 (body_of [("messageId", VStr "5")])
              (VStr "u2") [VStr "u9"] db_two_users)
    as (sm & _ & _ & _ & _ & _).
  - reflexivity.
  - split; reflexivity.
Defined.

(** X13.  Without [targetUsers], POST /api/messages/send-targeted does
    what POST /api/messages/send does, but for the tag: the two answer
    with the same HTTP status on every state and body; they change
    nothing when they fail; and when they succeed they take the same
    pending message out and append the same record, addressed to all the
    devices, which the targeted send tags "all" and the plain send leaves
    untagged. *)
Theorem sendTargeted_all_like_sendMessage now (body : obj) s :
  let r := sendMessage now body s in
  let r' := sendTargeted now body None s in
  status r'.1 = status r.1 ∧
  (is_success r.1 = false → r.2 = s ∧ r'.2 = s) ∧
  (is_success r.1 = true →
   ∃ i m,
     pendingMessages s !! i = Some m ∧
     r.2 = Db (devices s) (delete i (pendingMessages s))
             (sentMessages s ++
              [to_sent now m None (to_recipient <$> devices s)])
             (broadcastMessages s) ∧
     r'.2 = Db (devices s) (delete i (pendingMessages s))
              (sentMessages s ++
               [to_sent now m (Some "all") (to_recipient <$> devices s)])
              (broadcastMessages s)).
Proof.
  unfold sendMessage, sendTargeted, select_devices.
  destruct (truthy (body !! "messageId")); simpl; [|done].
  destruct (list_find _ _) as [[i m]|] eqn:Hfind;
    destruct (length (devices s) =? 0)%nat; simpl; try done.
  split; [done|]. split; [done|]. intros _. exists i, m.
  by apply list_find_Some in Hfind as (? & _).
Qed.

Lemma sendTargeted_all_like_sendMessage_witness :
  let body := body_of [("messageId", VStr "5")] in
  status (sendTargeted 9 body None db_pending_device).1 = 200 ∧
  s_targetType <$> sentMessages (sendMessage 9 body db_pending_device).2
    = [None] ∧
  s_targetType <$> sentMessages (sendTargeted 9 body None db_pending_device).2
    = [Some "all"].
Proof.
  destruct (sendTargeted_all_like_sendMessage 9
              (body_of [("messageId", VStr "5")]) db_pending_device)
    as (Hstatus & _ & Hsuccess).
  destruct Hsuccess as (i & m & _ & _ & _); [reflexivity|].
  split; [rewrite Hstatus; reflexivity|]. split; reflexivity.
Defined.

(** ** Composing and sending *)

Lemma pretty_N_go_nonempty x s : s ≠ "" → pretty_N_go x s ≠ "".
Proof.
  revert s. induction (N.lt_wf_0 x) as [x _ IH]; intros s Hs.
  destruct (decide (x = 0)%N) as [->|Hx]; [by rewrite pretty_N_go_0|].
  rewrite pretty_N_go_step by lia. apply IH; [|done].
  apply N.div_lt; lia.
Qed.

(** An identifier made from the clock is never the empty string. *)
Lemma toString_nonempty now : toString now ≠ "".
Proof.
  unfold toString, pretty, pretty_N. case_decide; [done|].
  rewrite pretty_N_go_step by lia. by apply pretty_N_go_nonempty.
Qed.

Lemma truthy_toString now : truthy (Some (VStr (toString now))) = true.
Proof.
  simpl. apply negb_true_iff, String.eqb_neq, toString_nonempty.
Qed.



(** The first device of the registry (the empty object when there is
    none). *)
Definition device_of (s : db) : obj := default ∅ (head (devices s)).

Lemma sendMessage_success_inv now (sendRequest : obj) s :
  is_success (sendMessage now sendRequest s).1 = true →
  ∃ i m,
    truthy (sendRequest !! "messageId") = true ∧
    list_find (λ m, Some (VStr (m_id m)) = sendRequest !! "messageId")
      (pendingMessages s) = Some (i, m) ∧
    sendMessage now sendRequest s =
      (Success (MessageSent (to_sent now m None (to_recipient <$> devices s))),
       Db (devices s) (delete i (pendingMessages s))
          (sentMessages s ++
           [to_sent now m None (to_recipient <$> devices s)])
          (broadcastMessages s)).
Proof.
  unfold sendMessage.
  destruct (truthy (sendRequest !! "messageId")); [|done]. simpl.
  destruct (length _ =? 0)%nat; [done|].
  destruct (list_find _ _) as [[i m]|]; [|done].
  intros _. by exists i, m.
Qed.

(** X15.  A message just sent can be marked as read by any device that
    was registered when it was sent: when no older sent record bears the
    id, POST /api/messages/read with the id of the message and the id of
    such a device succeeds, and in the new record a recipient entry of
    that device id is then "read", with the clock reading of the read as
    [readAt]. *)
Theorem send_then_read now now' (sendRequest d : obj) s :
  let r := sendMessage now sendRequest s in
  let readRequest :=
    set_prop "messageId" (sendRequest !! "messageId")
      (set_prop "deviceId" (d !! "id") ∅) in
  is_success r.1 = true →
  (∀ m, m ∈ sentMessages s →
        Some (VStr (s_id m)) ≠ sendRequest !! "messageId") →
  d ∈ devices s →
  truthy (d !! "id") = true →
  (markRead now' readRequest r.2).1 = Success MarkedRead ∧
  ∃ sm rc,
    sentMessages (markRead now' readRequest r.2).2 = sentMessages s ++ [sm] ∧
    rc ∈ s_recipients sm ∧
    r_deviceId rc = d !! "id" ∧
    r_status rc = "read" ∧ r_readAt rc = Some now'.
Proof.
  intros r readRequest (i & m & Hid & Hfind & Hsend)%sendMessage_success_inv
    Hfresh Hd Hdid.
  subst r. rewrite Hsend. simpl.
  assert (readRequest !! "messageId" = sendRequest !! "messageId") as Hmid.
  { subst readRequest. by rewrite lookup_set_prop_eq. }
  assert (readRequest !! "deviceId" = d !! "id") as Hdev.
  { subst readRequest. rewrite lookup_set_prop_ne by done.
    by rewrite lookup_set_prop_eq. }
  set (sm := to_sent now m None (to_recipient <$> devices s)).
  assert (list_find
            (λ m, Some (VStr (s_id m)) = readRequest !! "messageId")
            (sentMessages s ++ [sm]) = Some (length (sentMessages s), sm))
    as Hm.
  { rewrite list_find_app_r.
    - simpl. rewrite decide_True; [done|]. rewrite Hmid. simpl.
      by apply list_find_Some in Hfind as (_ & ? & _).
    - apply list_find_None, Forall_forall. intros x Hx. rewrite Hmid.
      by apply Hfresh. }
  destruct (list_find_elem_of
              (λ r, r_deviceId r = readRequest !! "deviceId")
              (s_recipients sm) (to_recipient d)) as [[j rc] Hr].
  { simpl. apply list_elem_of_fmap. by exists d. }
  { by rewrite Hdev. }
  assert (truthy (readRequest !! "messageId") = true) as Hid'
    by by rewrite Hmid.
  assert (truthy (readRequest !! "deviceId") = true) as Hdid'
    by by rewrite Hdev.
  rewrite (markRead_found now' readRequest
             (Db (devices s) (delete i (pendingMessages s))
                (sentMessages s ++ [sm]) (broadcastMessages s))
             (length (sentMessages s)) sm j rc Hid' Hdid' Hm Hr).
  split; [done|]. simpl.
  apply list_find_Some in Hr as (Hj & Hrc & _).
  eexists _, (mark_recipient now' rc). split.
  - rewrite insert_app_r_alt, Nat.sub_diag by done. done.
  - simpl. split; [|by rewrite Hrc, Hdev].
    eapply list_elem_of_lookup_2, list_lookup_insert_eq.
    by eapply lookup_lt_Some.
Qed.

Lemma send_then_read_witness :
  let sendRequest := body_of [("messageId", VStr "5")] in
  let readRequest := body_of [("messageId", VStr "5"); ("deviceId", VStr "6")] in
  (markRead 9 readRequest (sendMessage 7 sendRequest db_pending_device).2).1
    = Success MarkedRead.
Proof.
  pose (d := (device_of db_pending_device)).
  destruct (send_then_read 7 9 (body_of [("messageId", VStr "5")])
              d db_pending_device) as [Hread _].
  - reflexivity.
  - intros m Hm. by apply not_elem_of_nil in Hm.
  - left.
  - reflexivity.
  - exact Hread.
Defined.

(** ** What a registration writes *)





(** ** The users derived from the devices *)

(** The devices of a user. *)
Definition devices_of (userId : option value) (devs : list obj) : list obj :=
  filter (λ device : obj, device !! "userId" = userId) devs.

(** What GET /api/users holds about a user, given the devices. *)
Definition user_ok (devs : list obj) (u : user) : Prop :=
  truthy (u_id u) = true ∧
  0 < u_deviceCount u ∧
  u_deviceCount u = length (devices_of (u_id u) devs) ∧
  u_displayName u =
    js_or (head (devices_of (u_id u) devs) ≫= λ d, d !! "deviceName")
      (u_id u) ∧
  u_email u =
    js_or (head (devices_of (u_id u) devs) ≫= λ d, d !! "email")
      (Some VNull).

Lemma devices_of_snoc_ne userId devs (d : obj) :
  d !! "userId" ≠ userId →
  devices_of userId (devs ++ [d]) = devices_of userId devs.
Proof.
  intros Hne. unfold devices_of. rewrite filter_app, filter_cons.
  rewrite decide_False by done. by rewrite filter_nil, app_nil_r.
Qed.

Lemma devices_of_snoc_eq devs (d : obj) :
  devices_of (d !! "userId") (devs ++ [d])
  = devices_of (d !! "userId") devs ++ [d].
Proof.
  unfold devices_of. rewrite filter_app, filter_cons.
  by rewrite decide_True.
Qed.

Lemma user_ok_snoc_ne devs (d : obj) u :
  d !! "userId" ≠ u_id u → user_ok devs u → user_ok (devs ++ [d]) u.
Proof.
  intros Hne. unfold user_ok. by rewrite devices_of_snoc_ne.
Qed.

Lemma listUsers_fold devs :
  let users := foldl add_user_device [] devs in
  NoDup (u_id <$> users) ∧
  Forall (user_ok devs) users ∧
  ∀ d : obj, d ∈ devs → truthy (d !! "userId") = true →
             d !! "userId" ∈ u_id <$> users.
Proof.
  induction devs as [|d devs IH] using rev_ind.
  { simpl. split; [constructor|]. split; [constructor|].
    by intros d ?%not_elem_of_nil. }
  rewrite foldl_app. simpl.
  destruct IH as (Hnodup & Hok & Hall).
  set (users := foldl add_user_device [] devs) in *.
  unfold add_user_device.
  destruct (truthy (d !! "userId")) eqn:Htruthy.
  - destruct (list_find _ users) as [[i u]|] eqn:Hfind.
    + (* a further device of a listed user *)
      apply list_find_Some in Hfind as (Hi & Hid & _).
      assert (∀ u', u_id u' = u_id u →
                u_id <$> <[i := u']> users = u_id <$> users) as Hids.
      { intros u' Hu'. rewrite list_fmap_insert, Hu'. apply list_insert_id.
        by rewrite list_lookup_fmap, Hi. }
      rewrite Hids by done. split; [done|]. split.
      * apply Forall_forall. intros u' (k & Hk)%list_elem_of_lookup_1.
        destruct (decide (k = i)) as [->|Hne].
        -- rewrite list_lookup_insert_eq in Hk by (by eapply lookup_lt_Some).
           injection Hk as <-.
           rewrite Forall_forall in Hok.
           destruct (Hok u) as (Ht & Hpos & Hcount & Hname & Hmail);
             [by eapply list_elem_of_lookup_2|].
           unfold user_ok. simpl. rewrite Hid, devices_of_snoc_eq.
           rewrite <- Hid. rewrite length_app. simpl.
           split; [done|]. split; [lia|]. split; [lia|].
           destruct (devices_of (u_id u) devs) as [|d0 l] eqn:Hdevs;
             [simpl in Hcount; lia|].
           by rewrite Hname, Hmail.
        -- rewrite list_lookup_insert_ne in Hk by done.
           apply user_ok_snoc_ne.
           ++ intros Heq. apply Hne.
              eapply (NoDup_lookup (u_id <$> users)); [done| |].
              ** by rewrite list_lookup_fmap, Hk.
              ** rewrite list_lookup_fmap, Hi. simpl. congruence.
           ++ rewrite Forall_forall in Hok. apply Hok.
              by eapply list_elem_of_lookup_2.
      * intros d' [Hd'| ->%list_elem_of_singleton]%elem_of_app Ht.
        -- by apply Hall.
        -- rewrite <- Hid. apply list_elem_of_fmap. exists u.
           split; [done|]. by eapply list_elem_of_lookup_2.
    + (* the first device of a user *)
      apply list_find_None in Hfind. rewrite Forall_forall in Hfind.
      assert (d !! "userId" ∉ u_id <$> users) as Hnew.
      { intros (u & Hu & Hin)%list_elem_of_fmap. by apply (Hfind u). }
      assert (devices_of (d !! "userId") devs = []) as Hnone.
      { unfold devices_of. apply filter_nil_Forall, Forall_forall.
        intros d' Hd' Heq. apply Hnew. rewrite <- Heq.
        apply Hall; [done|]. by rewrite Heq. }
      rewrite fmap_app. simpl. split; [|split].
      * apply NoDup_app. split; [done|]. split; [|apply NoDup_singleton].
        intros x Hx ->%list_elem_of_singleton. done.
      * apply Forall_app. split.
        -- apply Forall_forall. intros u Hu. apply user_ok_snoc_ne.
           ++ intros Heq. by apply (Hfind u).
           ++ rewrite Forall_forall in Hok. by apply Hok.
        -- constructor; [|constructor]. unfold user_ok. simpl.
           rewrite devices_of_snoc_eq, Hnone. simpl.
           split; [done|]. split; [lia|]. done.
      * intros d' [Hd'| ->%list_elem_of_singleton]%elem_of_app Ht.
        -- apply elem_of_app. left. by apply Hall.
        -- apply elem_of_app. right. by left.
  - (* a device without a user *)
    split; [done|]. split.
    + apply Forall_forall. intros u Hu. rewrite Forall_forall in Hok.
      destruct (Hok u Hu) as (Ht & ?). apply user_ok_snoc_ne; [|by apply Hok].
      intros Heq. rewrite Heq in Htruthy. congruence.
    + intros d' [Hd'| ->%list_elem_of_singleton]%elem_of_app Ht.
      * by apply Hall.
      * congruence.
Qed.

(** X18.  GET /api/users lists every user once: the listed identifiers
    are, without repetition, the truthy userIds that devices carry, and
    the deviceCount of each user is the number of devices with that
    userId.  The request changes nothing. *)
Theorem listUsers_lists_each_user_once s :
  ∃ users,
    listUsers s = (Success (UserList users), s) ∧
    NoDup (u_id <$> users) ∧
    (∀ id, id ∈ u_id <$> users ↔
           truthy id = true ∧ ∃ d : obj, d ∈ devices s ∧ d !! "userId" = id) ∧
    Forall (λ u, u_deviceCount u = length (devices_of (u_id u) (devices s)))
      users.
Proof.
  destruct (listUsers_fold (devices s)) as (Hnodup & Hok & Hall).
  eexists. split; [done|]. split; [done|]. split.
  - intros id. split.
    + intros (u & -> & Hu)%list_elem_of_fmap.
      rewrite Forall_forall in Hok.
      destruct (Hok u Hu) as (Ht & Hpos & Hcount & _). split; [done|].
      destruct (devices_of (u_id u) (devices s)) as [|d l] eqn:Hdevs;
        [simpl in Hcount; lia|].
      assert (d ∈ devices_of (u_id u) (devices s)) as Hd
        by (rewrite Hdevs; left).
      apply list_elem_of_filter in Hd as [? ?]. by exists d.
    + intros (Ht & d & Hd & <-). by apply Hall.
  - eapply Forall_impl; [exact Hok|]. by intros u (_ & _ & ? & _).
Qed.

(** X19.  The three views of a user agree.  For a non-empty identifier,
    GET /api/users/:userId and GET /api/users/:userId/devices answer 404
    exactly when GET /api/users does not list the identifier; and for a
    listed user the first answers with the display name, email and
    deviceCount of the list, and the second with that many devices. *)
Theorem user_views_agree userId s :
  userId ≠ "" →
  let users := foldl add_user_device [] (devices s) in
  (status (getUser userId s).1 = 404 ↔
   Some (VStr userId) ∉ u_id <$> users) ∧
  status (getUserDevices userId s).1 = status (getUser userId s).1 ∧
  ∀ u, u ∈ users → u_id u = Some (VStr userId) →
    ∃ devs l,
      (getUser userId s).1 =
        Success (UserInfo (u_id u) (u_displayName u) (u_email u)
                   (u_deviceCount u) devs) ∧
      (getUserDevices userId s).1 = Success (DeviceList l) ∧
      length l = u_deviceCount u.
Proof.
  intros Hne users.
  destruct (listUsers_fold (devices s)) as (Hnodup & Hok & Hall).
  fold users in Hnodup, Hok, Hall.
  assert (truthy (Some (VStr userId)) = true) as Htruthy.
  { simpl. by apply negb_true_iff, String.eqb_neq. }
  unfold getUser, getUserDevices.
  change (filter _ (devices s))
    with (devices_of (Some (VStr userId)) (devices s)).
  destruct (devices_of (Some (VStr userId)) (devices s)) as [|d l] eqn:Hdevs;
    simpl.
  - split; [|split; [done|]].
    + split; [|done]. intros _ (u & Hu & Hin)%list_elem_of_fmap.
      rewrite Forall_forall in Hok.
      destruct (Hok u Hin) as (_ & Hpos & Hcount & _).
      rewrite <- Hu, Hdevs in Hcount. simpl in Hcount. lia.
    + intros u Hu Hid. rewrite Forall_forall in Hok.
      destruct (Hok u Hu) as (_ & Hpos & Hcount & _).
      rewrite Hid, Hdevs in Hcount. simpl in Hcount. lia.
  - split; [|split; [done|]].
    + split; [done|]. intros Hnot. exfalso. apply Hnot.
      assert (d ∈ devices_of (Some (VStr userId)) (devices s)) as Hd
        by (rewrite Hdevs; left).
      apply list_elem_of_filter in Hd as [Hid Hd].
      rewrite <- Hid. apply Hall; [done|]. by rewrite Hid.
    + intros u Hu Hid. rewrite Forall_forall in Hok.
      destruct (Hok u Hu) as (_ & _ & Hcount & Hname & Hmail).
      rewrite Hid, Hdevs in Hcount, Hname, Hmail. simpl in *.
      eexists _, _. split; [|split; [done|by rewrite Hcount]].
      by rewrite Hid, Hname, Hmail, Hcount.
Qed.

Lemma user_views_agree_witness :
  status (getUser "u1" db_two_users).1 = 200 ∧
  status (getUserDevices "u1" db_two_users).1 = 200 ∧
  status (getUser "u9" db_two_users).1 = 404 ∧
  u_id <$> foldl add_user_device [] (devices db_two_users)
    = [Some (VStr "u1"); Some (VStr "u2")].
Proof.
  destruct (user_views_agree "u9" db_two_users) as (Hiff & _ & _);
    [discriminate|].
  split; [reflexivity|]. split; [reflexivity|]. split; [|reflexivity].
  apply Hiff. intros Hin. vm_compute in Hin.
  apply elem_of_cons in Hin as [Hin|Hin]; [discriminate Hin|].
  apply list_elem_of_singleton in Hin. discriminate Hin.
Defined.

(** ** Creating or updating a user *)

Lemma update_user_device_userId now (userData device : obj) :
  update_user_device now userData device !! "userId" = device !! "userId".
Proof.
  unfold update_user_device.
  destruct (truthy (userData !! "token")); by rewrite !lookup_set_prop_ne.
Qed.

Lemma update_user_device_lastSeen now (userData device : obj) :
  update_user_device now userData device !! "lastSeen" = Some (VDate now).
Proof.
  unfold update_user_device. destruct (truthy (userData !! "token")).
  - rewrite lookup_set_prop_ne by done. apply lookup_set_prop_eq.
  - apply lookup_set_prop_eq.
Qed.

Lemma devices_of_fmap (f : obj → obj) userId devs :
  (∀ d : obj, f d !! "userId" = d !! "userId") →
  devices_of userId (f <$> devs) = f <$> devices_of userId devs.
Proof.
  intros Hf. unfold devices_of.
  induction devs as [|d devs IH]; [done|].
  rewrite fmap_cons, !filter_cons, IH, Hf. by destruct (decide _).
Qed.

#[local] Arguments set_prop : simpl never.

(** X20.  The deviceCount that POST /api/users answers with is the number
    of devices GET /api/users/:userId/devices lists afterwards, and the
    user is not found afterwards exactly when the count is 0, in which
    case nothing was written.  The devices listed have the clock reading
    of the request as [lastSeen]; the devices of the other users are as
    before. *)
Theorem upsertUser_then_devices now userId (userData : obj) s :
  userData !! "id" = Some (VStr userId) →
  userId ≠ "" →
  let r := upsertUser now userData s in
  ∃ msg n,
    r.1 = Success (UserUpserted msg n (Some (VStr userId))) ∧
    (n = 0 → r.2 = s ∧ status (getUserDevices userId r.2).1 = 404) ∧
    (0 < n →
     ∃ l, (getUserDevices userId r.2).1 = Success (DeviceList l) ∧
          length l = n ∧
          Forall (λ d : obj, d !! "lastSeen" = Some (VDate now)) l) ∧
    (∀ other, other ≠ Some (VStr userId) →
       devices_of other (devices r.2) = devices_of other (devices s)).
Proof.
  intros Hid Hne. simpl. unfold upsertUser, getUserDevices. rewrite Hid.
  assert (truthy (Some (VStr userId)) = true) as ->.
  { simpl. by apply negb_true_iff, String.eqb_neq. }
  simpl.
  change (filter _ (devices s))
    with (devices_of (Some (VStr userId)) (devices s)).
  destruct (devices_of (Some (VStr userId)) (devices s)) as [|d0 l0] eqn:Hdevs;
    simpl.
  - destruct (truthy (userData !! "token")) eqn:Htok; simpl.
    + (* a first device for the user *)
      eexists _, 1. split; [done|]. split; [lia|]. split.
      * intros _.
        change (filter _ (devices s ++ [?d]))
          with (devices_of (Some (VStr userId)) (devices s ++ [d])).
        match goal with |- context [devices s ++ [?d]] => set (newDevice := d) end.
        assert (newDevice !! "userId" = Some (VStr userId)) as Huser.
        { subst newDevice. rewrite !lookup_set_prop_ne by done.
          apply lookup_set_prop_eq. }
        rewrite <- Huser, devices_of_snoc_eq, Huser, Hdevs. simpl.
        eexists. split; [done|]. split; [done|].
        constructor; [|constructor]. subst newDevice.
        rewrite !lookup_set_prop_ne by done. apply lookup_set_prop_eq.
      * intros other Hother. apply devices_of_snoc_ne.
        rewrite !lookup_set_prop_ne by done. rewrite lookup_set_prop_eq.
        congruence.
    + (* no device and no token *)
      eexists _, 0. split; [done|]. split; [|split; [lia|done]].
      intros _. split; [done|].
      change (filter _ (devices s))
        with (devices_of (Some (VStr userId)) (devices s)).
      by rewrite Hdevs.
  - (* devices of the user, updated in place *)
    eexists _, (S (length l0)). split; [done|]. split; [lia|].
    set (f := λ device : obj,
           if decide (device !! "userId" = Some (VStr userId))
           then update_user_device now userData device else device).
    assert (∀ d : obj, f d !! "userId" = d !! "userId") as Hf.
    { intros d. unfold f. destruct (decide _); [|done].
      apply update_user_device_userId. }
    split.
    + intros _.
      change (filter _ (f <$> devices s))
        with (devices_of (Some (VStr userId)) (f <$> devices s)).
      rewrite devices_of_fmap, Hdevs by done.
      destruct (f <$> d0 :: l0) as [|d1 l1] eqn:Hmap; [done|]. simpl.
      eexists. split; [done|]. rewrite <- Hmap, length_fmap.
      split; [done|]. apply Forall_fmap, Forall_forall. intros d Hd.
      rewrite <- Hdevs in Hd. apply list_elem_of_filter in Hd as [Hu _].
      simpl. unfold f. rewrite decide_True by done.
      apply update_user_device_lastSeen.
    + intros other Hother. rewrite devices_of_fmap by done.
      rewrite <- (list_fmap_id (devices_of other (devices s))) at 2.
      apply list_fmap_ext. intros k d Hd.
      apply list_elem_of_lookup_2, list_elem_of_filter in Hd as [Hu _].
      unfold f. rewrite decide_False; [done|]. congruence.
Qed.

Lemma upsertUser_then_devices_witness :
  let r := upsertUser 9 (body_of [("id", VStr "u1"); ("displayName", VStr "Ann")])
             db_two_users in
  r.1 = Success (UserUpserted "User updated" 1 (Some (VStr "u1"))) ∧
  devices_of (Some (VStr "u2")) (devices r.2)
    = devices_of (Some (VStr "u2")) (devices db_two_users) ∧
  (λ d : obj, d !! "lastSeen") <$> devices r.2
    = [Some (VDate 9); Some (VDate 7)].
Proof.
  destruct (upsertUser_then_devices 9 "u1"
              (body_of [("id", VStr "u1"); ("displayName", VStr "Ann")])
              db_two_users) as (msg & n & _ & _ & _ & Hothers).
  - reflexivity.
  - discriminate.
  - split; [reflexivity|]. split; [|reflexivity].
    apply Hothers. discriminate.
Defined.

(** * The server on the bare [http] module

    The repository also holds an older server, written on [http] alone,
    with the same routes up to POST /api/messages/send-targeted.  Its
    routes for devices and messages read and write the JSON files as the
    Express server does.  Its broadcast routes do not agree with one
    another on the shape of broadcast-messages.json: GET /api/broadcasts
    reads the [messages] property of the document ([getBroadcastMessages]),
    while the send and receipt routes take the document itself for the
    array ([getBroadcasts], [saveBroadcasts]). *)

Module Legacy.

(** What broadcast-messages.json holds: nothing that can be read and
    parsed; an object, with or without an array under [messages] (the
    start-up code writes [{messages: []}] when the file is missing); an
    array. *)
Inductive document :=
  | Unreadable
  | DocObject (messages : option (list broadcast))
  | DocArray (broadcasts : list broadcast).

(** The document written at start-up when there is none. *)
Definition initial : document := DocObject (Some []).

Inductive response :=
  | Answer (r : reply)
  | ValidationError (error : string)
  | NotFound (error : string)
  | ServerError
  | Uncaught.

Definition status (r : response) : option nat :=
  match r with
  | Answer _ => Some 200
  | ValidationError _ => Some 400
  | NotFound _ => Some 404
  | ServerError => Some 500
  | Uncaught => None
  end.

(** [getBroadcasts]: the parsed document, [[]] when reading or parsing
    throws.  [None] is a parsed document that is not an array. *)
Definition getBroadcasts (doc : document) : option (list broadcast) :=
  match doc with
  | Unreadable => Some []
  | DocObject _ => None
  | DocArray broadcasts => Some broadcasts
  end.

(** [saveBroadcasts] *)
Definition saveBroadcasts (broadcasts : list broadcast) : document :=
  DocArray broadcasts.

(** [getBroadcastMessages]: [readFile(...).messages || []]; [None] when
    [readFile] throws. *)
Definition getBroadcastMessages (doc : document) : option (list broadcast) :=
  match doc with
  | Unreadable => None
  | DocObject (Some messages) => Some messages
  | DocObject None => Some []
  | DocArray _ => Some []
  end.

(** GET /api/broadcasts; the route has no [try]. *)
Definition listBroadcasts (doc : document) : response * document :=
  match getBroadcastMessages doc with
  | Some broadcasts => (Answer (BroadcastList broadcasts), doc)
  | None => (Uncaught, doc)
  end.

(** POST /api/broadcasts/send, given the registered devices.  On a
    document that is not an array [broadcasts.push] throws, and the
    [catch] answers 500. *)
Definition sendBroadcast (now : N) (broadcastData : obj) (data : option obj)
    (devs : list obj) (doc : document) : response * document :=
  let title := broadcastData !! "title" in
  let message := broadcastData !! "message" in
  let type :=
    match broadcastData !! "type" with
    | None => Some (VStr "info")
    | Some t => Some t
    end in
  let data := default ∅ data in
  if negb (truthy title) || negb (truthy message) then
    (ValidationError "Title and message are required", doc)
  else if (length devs =? 0)%nat then
    (NotFound "No devices registered", doc)
  else
    let broadcastId := toString now in
    let newBroadcast :=
      {| b_id := broadcastId;
         b_title := title;
         b_message := message;
         b_type := type;
         b_data :=
           <["broadcastId" := VStr broadcastId]>
             (<["source" := VStr "broadcast"]> data);
         b_sentAt := now;
         b_recipients := (λ d : obj, d !! "id") <$> devs;
         b_receivedBy := [] |} in
    match getBroadcasts doc with
    | None => (ServerError, doc)
    | Some broadcasts =>
        (Answer (BroadcastSent broadcastId (length devs)),
         saveBroadcasts (broadcasts ++ [newBroadcast]))
    end.

(** POST /api/broadcasts/received.  On a document that is not an array
    [broadcasts.findIndex] throws, and the [catch] answers 500. *)
Definition markBroadcastReceived (receiveData : obj) (doc : document)
    : response * document :=
  let broadcastId := receiveData !! "broadcastId" in
  let deviceId := receiveData !! "deviceId" in
  if negb (truthy broadcastId) || negb (truthy deviceId) then
    (ValidationError "Broadcast ID and Device ID are required", doc)
  else
    match getBroadcasts doc with
    | None => (ServerError, doc)
    | Some broadcasts =>
        match list_find (λ b, Some (VStr (b_id b)) = broadcastId)
                broadcasts with
        | None => (NotFound "Broadcast not found", doc)
        | Some (broadcastIndex, b) =>
            if decide (deviceId ∈ b_receivedBy b) then
              (Answer BroadcastReceived, doc)
            else
              (Answer BroadcastReceived,
               saveBroadcasts
                 (<[broadcastIndex := push_receivedBy deviceId b]>
                    broadcasts))
        end
    end.

(** X21.  On the document the server itself writes at start-up, and on
    any document that is an object, the two POST routes for broadcasts
    cannot succeed: a send with a title, a message and a device
    registered, and a receipt with both ids, are answered 500 and write
    nothing. *)
Theorem object_document_fails now (broadcastData receiveData : obj) data devs
    messages :
  truthy (broadcastData !! "title") = true →
  truthy (broadcastData !! "message") = true →
  devs ≠ [] →
  truthy (receiveData !! "broadcastId") = true →
  truthy (receiveData !! "deviceId") = true →
  sendBroadcast now broadcastData data devs (DocObject messages)
    = (ServerError, DocObject messages) ∧
  markBroadcastReceived receiveData (DocObject messages)
    = (ServerError, DocObject messages).
Proof.
  intros Htitle Hmessage Hdevs Hid Hdev.
  unfold sendBroadcast, markBroadcastReceived.
  rewrite Htitle, Hmessage, Hid, Hdev. simpl.
  by destruct devs.
Qed.

Lemma object_document_fails_witness :
  status (sendBroadcast 2 (body_of [("title", VStr "T"); ("message", VStr "M")])
            None (devices db_pending_device) initial).1 = Some 500 ∧
  status (markBroadcastReceived
            (body_of [("broadcastId", VStr "2"); ("deviceId", VStr "6")])
            initial).1 = Some 500.
Proof.
  destruct (object_document_fails 2
              (body_of [("title", VStr "T"); ("message", VStr "M")])
              (body_of [("broadcastId", VStr "2"); ("deviceId", VStr "6")])
              None (devices db_pending_device) (Some []))
    as [Hsend Hreceived]; try reflexivity.
  - discriminate.
  - unfold initial. by rewrite Hsend, Hreceived.
Defined.

(** X22.  This server never lists a broadcast it has sent: whatever the
    document, when POST /api/broadcasts/send succeeds the document it
    writes is an array ending with the new broadcast, on which
    GET /api/broadcasts answers with the empty list, while a receipt for
    the new broadcast is accepted. *)
Theorem sent_broadcast_is_not_listed now (broadcastData : obj) data devs doc
    broadcastId recipients deviceId :
  (sendBroadcast now broadcastData data devs doc).1
    = Answer (BroadcastSent broadcastId recipients) →
  truthy deviceId = true →
  let doc' := (sendBroadcast now broadcastData data devs doc).2 in
  (∃ broadcasts b,
     doc' = DocArray (broadcasts ++ [b]) ∧ b_id b = broadcastId ∧
     length (b_recipients b) = recipients) ∧
  (listBroadcasts doc').1 = Answer (BroadcastList []) ∧
  (markBroadcastReceived
     (set_prop "broadcastId" (Some (VStr broadcastId))
        (set_prop "deviceId" deviceId ∅)) doc').1
    = Answer BroadcastReceived.
Proof.
  unfold sendBroadcast.
  destruct (negb _ || negb _); [done|].
  destruct (length devs =? 0)%nat; [done|].
  destruct (getBroadcasts doc) as [broadcasts|]; [|done]. simpl.
  intros [= <- <-] Hdev.
  split; [|split; [done|]].
  { eexists _, _. split; [done|]. simpl. by rewrite length_fmap. }
  unfold markBroadcastReceived.
  rewrite lookup_set_prop_eq, lookup_set_prop_ne by done.
  rewrite lookup_set_prop_eq, truthy_toString, Hdev. simpl.
  destruct (list_find _ _) as [[i b]|] eqn:Hfind.
  - by destruct (decide _).
  - apply list_find_None in Hfind.
    apply Forall_app in Hfind as [_ Hnew]. apply Forall_inv in Hnew.
    by destruct Hnew.
Qed.

Lemma sent_broadcast_is_not_listed_witness :
  let sent := sendBroadcast 2 (body_of [("title", VStr "T"); ("message", VStr "M")])
                None (devices db_pending_device) Unreadable in
  sent.1 = Answer (BroadcastSent "2" 1) ∧
  (listBroadcasts sent.2).1 = Answer (BroadcastList []).
Proof.
  destruct (sent_broadcast_is_not_listed 2
              (body_of [("title", VStr "T"); ("message", VStr "M")])
              None (devices db_pending_device) Unreadable "2" 1
              (Some (VStr "6"))) as (_ & Hlist & _).
  - reflexivity.
  - reflexivity.
  - split; [reflexivity|exact Hlist].
Defined.

End Legacy.
